(** * AI-Travel-Planner: the external travel-data aggregator

    A shallow embedding of the hotel and flight helpers of
    [travel_planner_simple.py] ([serpapi_search_hotels], [get_iata_code],
    [fetch_realtime_flights] with its local [nested_get] and
    [get_arrival_iata], and [mock_search_flights]).

    - JSON payloads are Python values ([value]); a [dict] is an association
      list in insertion order, looked up by its first binding.
    - A [str] is the list of its UTF-8 bytes.
    - Python exceptions are values of type [exn]; code that can raise lives
      in the error monad [res], code that also talks to the network in the
      monad [M], which threads the list of HTTP requests performed so far.
    - The environment and the network are a [world]: [os.getenv] and an
      oracle that answers a request given the requests made before it. *)

From Stdlib Require Import String Ascii List ZArith Bool Lia.
From Stdlib Require Import Floats.SpecFloat.
From Stdlib Require Import Numbers.DecimalString.
Import ListNotations.
Local Open Scope list_scope.
Local Open Scope string_scope.
Set Warnings "-register-all".

(** ** Python values *)

Inductive value : Type :=
| VNone
| VBool (b : bool)
| VInt (z : Z)
| VFloat (f : spec_float)
| VStr (s : string)
| VList (l : list value)
| VDict (kvs : list (string * value)).

(** [type(v).__name__] *)
Definition type_name (v : value) : string :=
  match v with
  | VNone => "NoneType"
  | VBool _ => "bool"
  | VInt _ => "int"
  | VFloat _ => "float"
  | VStr _ => "str"
  | VList _ => "list"
  | VDict _ => "dict"
  end.

(** [isinstance(v, dict)] and [isinstance(v, list)] *)
Definition is_dict (v : value) : bool :=
  match v with VDict _ => true | _ => false end.

Definition is_list (v : value) : bool :=
  match v with VList _ => true | _ => false end.

(** [v is None] *)
Definition is_none (v : value) : bool :=
  match v with VNone => true | _ => false end.

(** [bool(v)] *)
Definition truthy (v : value) : bool :=
  match v with
  | VNone => false
  | VBool b => b
  | VInt z => negb (z =? 0)%Z
  | VFloat (S754_zero _) => false
  | VFloat _ => true
  | VStr EmptyString => false
  | VStr _ => true
  | VList [] => false
  | VList _ => true
  | VDict [] => false
  | VDict _ => true
  end.

(** Lookup of a key in a dict: the first binding of the key. *)
Fixpoint dict_get (kvs : list (string * value)) (k : string) : option value :=
  match kvs with
  | [] => None
  | (k', v) :: rest => if String.eqb k k' then Some v else dict_get rest k
  end.

(** *** Equality [a == b] *)

(** A finite float is [(-1)^s * m * 2^e]; two of them are compared at the
    smaller exponent. *)
Definition float_eq (f g : spec_float) : bool :=
  match f, g with
  | S754_zero _, S754_zero _ => true
  | S754_infinity s, S754_infinity t => Bool.eqb s t
  | S754_finite s m e, S754_finite t n d =>
      let lo := Z.min e d in
      Bool.eqb s t &&
      (Z.pos m * 2 ^ (e - lo) =? Z.pos n * 2 ^ (d - lo))%Z
  | _, _ => false
  end.

Definition float_eq_int (f : spec_float) (z : Z) : bool :=
  match f with
  | S754_zero _ => (z =? 0)%Z
  | S754_finite s m e =>
      let mz := if s then Z.neg m else Z.pos m in
      if (0 <=? e)%Z then (z =? mz * 2 ^ e)%Z
      else (z * 2 ^ (- e) =? mz)%Z
  | _ => false
  end.

(** [bool] is a subclass of [int]: [True == 1]. *)
Definition Z_of_bool (b : bool) : Z := if b then 1%Z else 0%Z.

Fixpoint py_eq (a b : value) : bool :=
  match a, b with
  | VNone, VNone => true
  | VBool x, VBool y => Bool.eqb x y
  | VBool x, VInt y => (Z_of_bool x =? y)%Z
  | VBool x, VFloat g => float_eq_int g (Z_of_bool x)
  | VInt x, VBool y => (x =? Z_of_bool y)%Z
  | VInt x, VInt y => (x =? y)%Z
  | VInt x, VFloat g => float_eq_int g x
  | VFloat f, VBool y => float_eq_int f (Z_of_bool y)
  | VFloat f, VInt y => float_eq_int f y
  | VFloat f, VFloat g => float_eq f g
  | VStr s, VStr t => String.eqb s t
  | VList l, VList m =>
      (fix all2 (l m : list value) {struct l} : bool :=
         match l, m with
         | [], [] => true
         | x :: l', y :: m' => py_eq x y && all2 l' m'
         | _, _ => false
         end) l m
  | VDict kvs, VDict kvs' =>
      Nat.eqb (length kvs) (length kvs') &&
      (fix sub (kvs : list (string * value)) {struct kvs} : bool :=
         match kvs with
         | [] => true
         | (k, v) :: rest =>
             match dict_get kvs' k with
             | Some v' => py_eq v v'
             | None => false
             end && sub rest
         end) kvs
  | _, _ => false
  end.

(** ** Strings *)

Definition nl : string := String (ascii_of_nat 10) EmptyString.

(** Continuation byte of a UTF-8 sequence: [10xxxxxx]. *)
Definition is_cont (c : ascii) : bool :=
  let n := nat_of_ascii c in ((128 <=? n) && (n <? 192))%nat.

(** The characters (code points) of a [str], each as a one-character [str]:
    a leading byte with the continuation bytes that follow it. *)
Fixpoint utf8_chars (s : string) : list string :=
  match s with
  | EmptyString => []
  | String c r =>
      match r with
      | EmptyString => [String c EmptyString]
      | String c' _ =>
          if is_cont c' then
            match utf8_chars r with
            | h :: t => String c h :: t
            | [] => [String c EmptyString]
            end
          else String c EmptyString :: utf8_chars r
      end
  end.

(** [s[:n]] on a [str] *)
Definition str_take (n : nat) (s : string) : string :=
  String.concat EmptyString (firstn n (utf8_chars s)).

(** [s.lower()], on the ASCII letters.  The two needles the source searches
    for, "hotel" and "inn", are ASCII; the only non-ASCII characters whose
    lower case holds an ASCII letter are U+0130 (to "i" followed by U+0307)
    and U+212A (to "k"), and neither can take part in an occurrence of a
    needle, so for the source's tests this agrees with Python's [lower]. *)
Definition lower_ascii (c : ascii) : ascii :=
  let n := nat_of_ascii c in
  if ((65 <=? n) && (n <=? 90))%nat then ascii_of_nat (n + 32) else c.

Fixpoint lower (s : string) : string :=
  match s with
  | EmptyString => EmptyString
  | String c r => String (lower_ascii c) (lower r)
  end.

(** [needle in s] for two [str] *)
Fixpoint contains (needle s : string) : bool :=
  String.prefix needle s ||
  match s with
  | EmptyString => false
  | String _ r => contains needle r
  end.

(** [str(z)] for an [int] *)
Definition str_of_Z (z : Z) : string := NilZero.string_of_int (Z.to_int z).

(** ** Exceptions and the error monad *)

Inductive exn : Type :=
| RequestException (msg : string)       (* requests.get: connection, timeout *)
| HTTPError (msg : string)              (* response.raise_for_status() *)
| JSONDecodeError (msg : string)        (* response.json() *)
| AttributeError (ty attr : string)     (* 'ty' object has no attribute 'attr' *)
| NotIterable (ty : string)             (* TypeError: for ... in a ty *)
| NotContainer (ty : string)            (* TypeError: key in a ty *)
| BadSubscript (ty : string) (key : value)  (* obj[key]: TypeError, KeyError, IndexError *)
| BadSlice (ty : string).               (* obj[:n] on a ty *)

Definition res (A : Type) : Type := exn + A.

Definition rret {A} (a : A) : res A := inr a.
Definition rraise {A} (e : exn) : res A := inl e.
Definition rbind {A B} (c : res A) (k : A -> res B) : res B :=
  match c with
  | inl e => inl e
  | inr a => k a
  end.

Declare Scope res_scope.
Delimit Scope res_scope with res.
Notation "x <- c ;; k" := (rbind c (fun x => k))
  (at level 61, c at next level, right associativity) : res_scope.

(** [a or b]: [b] is evaluated only when [a] is falsy. *)
Definition py_or (a b : res value) : res value :=
  rbind a (fun x => if truthy x then rret x else b).

Declare Scope py_scope.
Notation "a 'or_else' b" := (py_or a b)
  (at level 70, right associativity) : py_scope.
Local Open Scope py_scope.

(** [v.get(k, default)]: a method of [dict] only. *)
Definition py_get (v : value) (k : string) (default : value) : res value :=
  match v with
  | VDict kvs =>
      rret (match dict_get kvs k with Some x => x | None => default end)
  | _ => rraise (AttributeError (type_name v) "get")
  end.

(** [for x in v]: the items the loop visits. *)
Definition py_iter (v : value) : res (list value) :=
  match v with
  | VList l => rret l
  | VDict kvs => rret (map (fun kv => VStr (fst kv)) kvs)
  | VStr s => rret (map VStr (utf8_chars s))
  | _ => rraise (NotIterable (type_name v))
  end.

(** [k in v] for a [str] key [k] *)
Definition py_in (k : string) (v : value) : res bool :=
  match v with
  | VDict kvs => rret (match dict_get kvs k with Some _ => true | None => false end)
  | VList l => rret (existsb (py_eq (VStr k)) l)
  | VStr s => rret (contains k s)
  | _ => rraise (NotContainer (type_name v))
  end.

(** [v[k]] for a [str] key [k] *)
Definition py_getitem (v : value) (k : string) : res value :=
  match v with
  | VDict kvs =>
      match dict_get kvs k with
      | Some x => rret x
      | None => rraise (BadSubscript "dict" (VStr k))
      end
  | _ => rraise (BadSubscript (type_name v) (VStr k))
  end.

(** [v[0]] *)
Definition py_first (v : value) : res value :=
  match v with
  | VList (x :: _) => rret x
  | VStr s =>
      match utf8_chars s with
      | c :: _ => rret (VStr c)
      | [] => rraise (BadSubscript "str" (VInt 0))
      end
  | _ => rraise (BadSubscript (type_name v) (VInt 0))
  end.

(** [v[:n]] *)
Definition py_slice (n : nat) (v : value) : res value :=
  match v with
  | VList l => rret (VList (firstn n l))
  | VStr s => rret (VStr (str_take n s))
  | _ => rraise (BadSlice (type_name v))
  end.

(** ** [nested_get] (local to [fetch_realtime_flights])

    [cur] walks down the path; the [isinstance] test guards the [get]. *)
Fixpoint nested_get (d : value) (path : list string) : res value :=
  match path with
  | [] => rret d
  | p :: rest =>
      if negb (is_dict d) then rret VNone
      else (cur <- py_get d p VNone ;;
            if is_none cur then rret VNone else nested_get cur rest)%res
  end.

(** [get_arrival_iata] (local to [fetch_realtime_flights]) *)
Definition get_arrival_iata (f : value) : res value :=
  nested_get f ["arrival"; "airport"; "iata"]
  or_else nested_get f ["arrival"; "iata"]
  or_else nested_get f ["arrivalIata"].

(** ** The world: environment and network *)

(** One [requests.get(url, params=..., headers=..., timeout=10)]. *)
Record request : Type := mkRequest {
  req_url : string;
  req_params : list (string * string);
  req_headers : list (string * string)
}.

(** What came back: [raise_for_status] raises when [status_error] is set,
    [json()] raises when the body does not decode. *)
Record response : Type := mkResponse {
  status_error : option string;
  body : string + value
}.

Inductive http_outcome : Type :=
| ConnError (msg : string)
| Responded (r : response).

(** [network w earlier req]: the outcome of [req] after the requests
    [earlier] have been made. *)
Record world : Type := mkWorld {
  getenv : string -> option string;
  network : list request -> request -> http_outcome
}.

(** [not api_key] for the result of [os.getenv] *)
Definition env_falsy (o : option string) : bool :=
  match o with
  | None => true
  | Some EmptyString => true
  | Some _ => false
  end.

(** ** The monad of code that calls the network

    The state is the list of requests performed so far, oldest first. *)
Definition M (A : Type) : Type := list request -> res A * list request.

Definition mret {A} (a : A) : M A := fun tr => (inr a, tr).
Definition mbind {A B} (c : M A) (k : A -> M B) : M B :=
  fun tr =>
    match c tr with
    | (inl e, tr') => (inl e, tr')
    | (inr a, tr') => k a tr'
    end.
Definition mlift {A} (c : res A) : M A := fun tr => (c, tr).

(** [try: c  except Exception as e: h e] *)
Definition mtry {A} (c : M A) (h : exn -> M A) : M A :=
  fun tr =>
    match c tr with
    | (inl e, tr') => h e tr'
    | (inr a, tr') => (inr a, tr')
    end.

Declare Scope M_scope.
Delimit Scope M_scope with M.
Notation "x <- c ;; k" := (mbind c (fun x => k))
  (at level 61, c at next level, right associativity) : M_scope.

Definition requests_get (w : world) (req : request) : M response :=
  fun tr =>
    match network w tr req with
    | ConnError msg => (inl (RequestException msg), (tr ++ [req])%list)
    | Responded r => (inr r, (tr ++ [req])%list)
    end.

Definition raise_for_status (r : response) : res unit :=
  match status_error r with
  | Some msg => rraise (HTTPError msg)
  | None => rret tt
  end.

Definition json (r : response) : res value :=
  match body r with
  | inl msg => rraise (JSONDecodeError msg)
  | inr v => rret v
  end.

(** [requests.get], [raise_for_status] and [json()] in a row, as all three
    call sites have them. *)
Definition get_json (w : world) (req : request) : M value :=
  (r <- requests_get w req ;;
   _ <- mlift (raise_for_status r) ;;
   mlift (json r))%M.

(** ** [mock_search_flights] *)
Definition mock_search_flights (origin destination departure_date : string)
    (return_date : option string) (adults : Z) : string :=
  "Flights from " ++ origin ++ " to " ++ destination ++ " on " ++ departure_date
  ++ (match return_date with
      | Some ((String _ _) as r) => " returning " ++ r
      | _ => EmptyString
      end)
  ++ " for " ++ str_of_Z adults ++ " adults:" ++ nl
  ++ "- Airline X: $350" ++ nl ++ "- Airline Y: $420" ++ nl ++ "- Airline Z: $390".

Section Aggregator.

(** What the Python runtime and its libraries render; the code only
    concatenates their results.
    - [exn_str e] is [str(e)] of an exception;
    - [float_repr f] is [repr(f)] of a float;
    - [str_repr s] is [repr(s)] of a str (quoted and escaped);
    - [json_dumps v] is [json.dumps(v, indent=2)]. *)
Variable exn_str : exn -> string.
Variable float_repr : spec_float -> string.
Variable str_repr : string -> string.
Variable json_dumps : value -> string.

(** [repr(v)] *)
Fixpoint py_repr (v : value) : string :=
  match v with
  | VNone => "None"
  | VBool true => "True"
  | VBool false => "False"
  | VInt z => str_of_Z z
  | VFloat f => float_repr f
  | VStr s => str_repr s
  | VList l =>
      "[" ++
      (fix items (l : list value) : string :=
         match l with
         | [] => EmptyString
         | x :: r =>
             match r with
             | [] => py_repr x
             | _ :: _ => py_repr x ++ ", " ++ items r
             end
         end) l ++ "]"
  | VDict kvs =>
      "{" ++
      (fix items (kvs : list (string * value)) : string :=
         match kvs with
         | [] => EmptyString
         | (k, x) :: r =>
             match r with
             | [] => str_repr k ++ ": " ++ py_repr x
             | _ :: _ => str_repr k ++ ": " ++ py_repr x ++ ", " ++ items r
             end
         end) kvs ++ "}"
  end.

(** [str(v)], which is what an f-string field [{v}] renders *)
Definition py_str (v : value) : string :=
  match v with
  | VStr s => s
  | _ => py_repr v
  end.

(** ** [serpapi_search_hotels] *)

(** [title.lower()] *)
Definition py_lower (v : value) : res string :=
  match v with
  | VStr s => rret (lower s)
  | _ => rraise (AttributeError (type_name v) "lower")
  end.

(** [hotels.append(arg)]: the method is looked up before [arg] is
    evaluated. *)
Definition py_append (hotels : value) (arg : res value) : res value :=
  match hotels with
  | VList l => (x <- arg ;; rret (VList (l ++ [x])%list))%res
  | _ => rraise (AttributeError (type_name hotels) "append")
  end.

(** The dict literal appended for a hotel-like organic result. *)
Definition hotel_entry (item : value) : res value :=
  (title <- py_get item "title" (VStr "N/A") ;;
   address <- py_get item "address" (VStr "N/A") ;;
   rating <- py_get item "rating" (VStr "N/A") ;;
   reviews <- py_get item "reviews" (VStr "N/A") ;;
   price <- py_get item "price" (VStr "N/A") ;;
   link <- py_get item "link" (VStr "N/A") ;;
   rret (VDict [("title", title); ("address", address); ("rating", rating);
                ("reviews", reviews); ("price", price); ("link", link)]))%res.

(** ["hotel" in title.lower() or "inn" in title.lower()] *)
Definition hotel_like (title : value) : res bool :=
  (t <- py_lower title ;;
   if contains "hotel" t then rret true
   else (t' <- py_lower title ;; rret (contains "inn" t')))%res.

(** The loop over [data["organic_results"]]. *)
Fixpoint scan_organic (items : list value) (hotels : value) : res value :=
  match items with
  | [] => rret hotels
  | item :: rest =>
      (title <- py_get item "title" (VStr EmptyString) ;;
       keep <- hotel_like title ;;
       if keep then
         (hotels' <- py_append hotels (hotel_entry item) ;;
          scan_organic rest hotels')
       else scan_organic rest hotels)%res
  end.

(** The [local_results] structures, tried first. *)
Definition local_hotels (data : value) : res value :=
  (present <- py_in "local_results" data ;;
   if present then
     (lr <- py_getitem data "local_results" ;;
      if is_list lr then rret lr
      else if is_dict lr then
        (has <- py_in "places" lr ;;
         if has then py_getitem lr "places" else rret (VList []))
      else rret (VList []))
   else rret (VList []))%res.

(** The fallback over [organic_results]. *)
Definition organic_hotels (data hotels : value) : res value :=
  if negb (truthy hotels) then
    (present <- py_in "organic_results" data ;;
     if present then
       (org <- py_getitem data "organic_results" ;;
        items <- py_iter org ;;
        scan_organic items hotels)
     else rret hotels)%res
  else rret hotels.

Definition no_hotels_message (data : value) : string :=
  "No hotels found for your search." ++ nl ++ nl ++
  "<details><summary>Debug: Raw SerpAPI response</summary>" ++ nl ++
  "<pre>" ++ str_take 2000 (json_dumps data) ++ "...</pre></details>".

Definition hotel_table_header : string :=
  "### Top Hotels (Google Hotels via SerpAPI)" ++ nl ++
  "| Name | Address | Rating | Reviews | Price | Link |" ++ nl ++
  "|---|---|---|---|---|---|" ++ nl.

(** One pass of the rendering loop: the row of [h]. *)
Definition hotel_row (h : value) : res string :=
  (name <- py_get h "title" (VStr "N/A") ;;
   address <- py_get h "address" (VStr "N/A") ;;
   rating <- py_get h "rating" (VStr "N/A") ;;
   reviews <- py_get h "reviews" (VStr "N/A") ;;
   price <- py_get h "price" (VStr "N/A") ;;
   link <- (py_get h "link" VNone or_else rret (VStr "N/A")) ;;
   let link :=
     if negb (py_eq link (VStr "N/A"))
     then VStr ("[View](" ++ py_str link ++ ")") else link in
   rret ("| " ++ py_str name ++ " | " ++ py_str address ++ " | " ++
         py_str rating ++ " | " ++ py_str reviews ++ " | " ++
         py_str price ++ " | " ++ py_str link ++ " |" ++ nl))%res.

Fixpoint render_hotels (hs : list value) (result : string) : res string :=
  match hs with
  | [] => rret result
  | h :: rest => (row <- hotel_row h ;; render_hotels rest (result ++ row))%res
  end.

(** The body of the [try] after [data = response.json()]. *)
Definition hotels_of_payload (data : value) : res string :=
  (hotels <- local_hotels data ;;
   hotels <- organic_hotels data hotels ;;
   if negb (truthy hotels) then rret (no_hotels_message data)
   else
     (top <- py_slice 5 hotels ;;
      hs <- py_iter top ;;
      render_hotels hs hotel_table_header))%res.

Definition serpapi_request (w : world) (destination : string) : request :=
  let serpapi_key :=
    match getenv w "SERPAPI_KEY" with
    | Some k => k
    | None => "your-serpapi-key"
    end in
  mkRequest "https://serpapi.com/search.json"
    [("engine", "google"); ("q", "hotels in " ++ destination);
     ("location", destination); ("hl", "en"); ("gl", "us"); ("tbm", "lcl");
     ("api_key", serpapi_key)]
    [].

(** The [try] block of [serpapi_search_hotels]. *)
Definition serpapi_attempt (w : world) (destination : string) : M string :=
  (data <- get_json w (serpapi_request w destination) ;;
   mlift (hotels_of_payload data))%M.

Definition serpapi_search_hotels (w : world)
    (destination check_in check_out : string) (adults : Z) : M string :=
  mtry (serpapi_attempt w destination)
       (fun e => mret ("[SerpAPI error: " ++ exn_str e ++ "]")).

(** ** [get_iata_code] *)

Definition iata_request (api_key city_name : string) : request :=
  mkRequest
    ("https://aerodatabox.p.rapidapi.com/airports/search/term/" ++ city_name
     ++ "?limit=1")
    []
    [("x-rapidapi-host", "aerodatabox.p.rapidapi.com");
     ("x-rapidapi-key", api_key)].

(** What the [try] block does with the decoded body: [Some v] when it
    returns [v], [None] when it falls through to the last [return]. *)
Definition iata_of_payload (city_name : string) (data : value)
    : res (option value) :=
  (items <- py_get data "items" (VList []) ;;
   if truthy items then
     (first <- py_first items ;;
      code <- (py_get first "iata" VNone or_else rret (VStr city_name)) ;;
      rret (Some code))
   else rret None)%res.

Definition get_iata_code (w : world) (city_name : string) : M value :=
  let api_key := getenv w "RAPIDAPI_KEY" in
  if env_falsy api_key then mret (VStr city_name)
  else
    let key := match api_key with Some k => k | None => EmptyString end in
    (returned <-
       mtry (data <- get_json w (iata_request key city_name) ;;
             mlift (iata_of_payload city_name data))
            (fun _ => mret None) ;;
     match returned with
     | Some v => mret v
     | None => mret (VStr city_name)
     end)%M.

(** ** [fetch_realtime_flights] *)

(** The list comprehension
    [[f for f in flights if get_arrival_iata(f) == dest_iata]]. *)
Fixpoint filter_arrival (dest_iata : value) (fs : list value)
    : res (list value) :=
  match fs with
  | [] => rret []
  | f :: rest =>
      (code <- get_arrival_iata f ;;
       kept <- filter_arrival dest_iata rest ;;
       rret (if py_eq code dest_iata then f :: kept else kept))%res
  end.

Definition NA : res value := rret (VStr "N/A").

(** The twelve cells of a record, in the order of the columns. *)
Record flight_cells : Type := mkCells {
  airline : value; flight_num : value; dep_time : value; dep_airport : value;
  arr_time : value; arr_airport : value; duration : value; status : value;
  terminal : value; gate : value; aircraft : value; baggage : value
}.

Definition resolve_cells (f : value) : res flight_cells :=
  (airline <- (nested_get f ["airline"; "name"]
               or_else py_get f "airlineName" VNone
               or_else nested_get f ["operatingAirline"; "name"]
               or_else NA) ;;
   flight_num <- (py_get f "flightNumber" VNone
                  or_else py_get f "number" VNone
                  or_else nested_get f ["flight"; "number"]
                  or_else NA) ;;
   dep_time <- (nested_get f ["scheduledTimeLocal"]
                or_else nested_get f ["departure"; "scheduledTimeLocal"]
                or_else nested_get f ["departure"; "actualTimeLocal"]
                or_else NA) ;;
   dep_airport <- (nested_get f ["airport"; "name"]
                   or_else nested_get f ["departure"; "airport"; "name"]
                   or_else nested_get f ["departure"; "airportName"]
                   or_else NA) ;;
   arr_time <- (nested_get f ["arrival"; "scheduledTimeLocal"]
                or_else nested_get f ["arrival"; "actualTimeLocal"]
                or_else NA) ;;
   arr_airport <- (nested_get f ["arrival"; "airport"; "name"]
                   or_else nested_get f ["arrival"; "airportName"]
                   or_else NA) ;;
   duration <- (py_get f "flightDuration" VNone
                or_else nested_get f ["duration"]
                or_else NA) ;;
   status <- (py_get f "status" VNone
              or_else nested_get f ["status"; "name"]
              or_else NA) ;;
   terminal <- (py_get f "terminal" VNone
                or_else nested_get f ["departure"; "terminal"]
                or_else nested_get f ["arrival"; "terminal"]
                or_else NA) ;;
   gate <- (py_get f "gate" VNone
            or_else nested_get f ["departure"; "gate"]
            or_else nested_get f ["arrival"; "gate"]
            or_else NA) ;;
   aircraft <- (nested_get f ["aircraft"; "model"]
                or_else py_get f "aircraftModel" VNone
                or_else nested_get f ["aircraft"; "type"]
                or_else NA) ;;
   baggage <- (py_get f "baggageBelt" VNone
               or_else nested_get f ["arrival"; "baggageBelt"]
               or_else NA) ;;
   rret (mkCells airline flight_num dep_time dep_airport arr_time arr_airport
           duration status terminal gate aircraft baggage))%res.

(** The seven key attributes of a row. *)
Definition key_cells (c : flight_cells) : list value :=
  [airline c; flight_num c; dep_time c; dep_airport c; arr_time c;
   arr_airport c; aircraft c].

(** [v and v != "N/A"] *)
Definition resolved (v : value) : bool :=
  truthy v && negb (py_eq v (VStr "N/A")).

(** [sum(1 for v in [...] if v and v != "N/A")] *)
Definition count_meaningful (c : flight_cells) : nat :=
  length (filter resolved (key_cells c)).

Definition flight_row (c : flight_cells) : string :=
  "| " ++ py_str (airline c) ++ " | " ++ py_str (flight_num c) ++ " | " ++
  py_str (dep_time c) ++ " | " ++ py_str (dep_airport c) ++ " | " ++
  py_str (arr_time c) ++ " | " ++ py_str (arr_airport c) ++ " | " ++
  py_str (duration c) ++ " | " ++ py_str (status c) ++ " | " ++
  py_str (terminal c) ++ " | " ++ py_str (gate c) ++ " | " ++
  py_str (aircraft c) ++ " | " ++ py_str (baggage c) ++ " |" ++ nl.

(** The rendering loop; its state is [result] and [meaningful], and each
    pass assigns [meaningful] anew. *)
Fixpoint render_flights (fs : list value) (result : string) (meaningful : nat)
    : res (string * nat) :=
  match fs with
  | [] => rret (result, meaningful)
  | f :: rest =>
      (c <- resolve_cells f ;;
       let meaningful := count_meaningful c in
       render_flights rest (result ++ flight_row c) meaningful)%res
  end.

Definition flight_table_header (origin_iata dest_iata : value)
    (departure_date : string) : string :=
  "### Real-time flights from " ++ py_str origin_iata ++ " to " ++
  py_str dest_iata ++ " on " ++ departure_date ++ nl ++
  "| Airline | Flight | Departure | Departure Airport | Arrival | Arrival Airport | Duration | Status | Terminal | Gate | Aircraft | Baggage |" ++ nl ++
  "|---|---|---|---|---|---|---|---|---|---|---|---|" ++ nl.

Definition advisory : string :=
  "> Note: The flight API response is missing many fields; try updating your RapidAPI key or check the API quota.".

Definition no_flights_message : string := "No real-time flights found.".

(** The body of the [try] after [data = response.json()]. *)
Definition flights_of_payload (origin_iata dest_iata : value)
    (departure_date : string) (data : value) : res string :=
  (flights <- py_get data "departures" (VList []) ;;
   if negb (truthy flights) then rret no_flights_message
   else
     (fs <- py_iter flights ;;
      matching <- filter_arrival dest_iata fs ;;
      filtered <- (if negb (truthy (VList matching)) then py_slice 5 flights
                   else rret (VList matching)) ;;
      top <- py_slice 5 filtered ;;
      rows <- py_iter top ;;
      out <- render_flights rows
               (flight_table_header origin_iata dest_iata departure_date) 0 ;;
      let (result, meaningful) := out in
      rret (if (meaningful <? 3)%nat then result ++ nl ++ advisory
            else result)))%res.

Definition flights_request (api_key : string) (origin_iata : value) : request :=
  mkRequest
    ("https://aerodatabox.p.rapidapi.com/flights/airports/iata/" ++
     py_str origin_iata ++
     "?offsetMinutes=-120&durationMinutes=720&withLeg=true&direction=Both&withCancelled=true" ++
     "&withCodeshared=true&withCargo=true&withPrivate=true&withLocation=false")
    []
    [("x-rapidapi-host", "aerodatabox.p.rapidapi.com");
     ("x-rapidapi-key", api_key)].

(** The [try] block of [fetch_realtime_flights]. *)
Definition flights_attempt (w : world) (api_key : string)
    (origin_iata dest_iata : value) (departure_date : string) : M string :=
  (data <- get_json w (flights_request api_key origin_iata) ;;
   mlift (flights_of_payload origin_iata dest_iata departure_date data))%M.

Definition fetch_realtime_flights (w : world)
    (origin destination departure_date : string)
    (return_date : option string) (adults : Z) : M string :=
  let api_key := getenv w "RAPIDAPI_KEY" in
  (origin_iata <- get_iata_code w origin ;;
   dest_iata <- get_iata_code w destination ;;
   if env_falsy api_key then
     mret (mock_search_flights origin destination departure_date
             return_date adults)
   else
     let key := match api_key with Some k => k | None => EmptyString end in
     mtry (flights_attempt w key origin_iata dest_iata departure_date)
          (fun e =>
             mret ("[API error: " ++ exn_str e ++ "] Falling back to mock data."
                   ++ nl ++
                   mock_search_flights origin destination departure_date
                     return_date adults)))%M.

(** ** Reading the results

    Pure readings of the monadic code, used to state what it computes. *)

(** The value at a nested path, when every segment is present and every
    container on the way is a mapping. *)
Fixpoint path_value (d : value) (path : list string) : option value :=
  match path with
  | [] => Some d
  | p :: rest =>
      match d with
      | VDict kvs =>
          match dict_get kvs p with
          | Some v => path_value v rest
          | None => None
          end
      | _ => None
      end
  end.

(** The value or the absence sentinel. *)
Definition path_or_none (d : value) (path : list string) : value :=
  match path_value d path with
  | Some v => v
  | None => VNone
  end.

(** [x or y] on values. *)
Definition or_val (x y : value) : value := if truthy x then x else y.

(** The arrival code, row, and count of resolved key attributes of a
    record, read off the source's own functions. *)
Definition arrival_code (f : value) : value :=
  match get_arrival_iata f with
  | inr v => v
  | inl _ => VNone
  end.

Definition row_of (f : value) : string :=
  match resolve_cells f with
  | inr c => flight_row c
  | inl _ => EmptyString
  end.

Definition meaningful_of (f : value) : nat :=
  match resolve_cells f with
  | inr c => count_meaningful c
  | inl _ => 0
  end.

(** The records whose arrival code equals the target. *)
Definition matching_arrival (dest_iata : value) (fs : list value) : list value :=
  filter (fun f => py_eq (arrival_code f) dest_iata) fs.

(** The records that get a row: the matching ones, or all of them when
    none matches; five at most. *)
Definition rendered_records (dest_iata : value) (fs : list value) : list value :=
  firstn 5 (match matching_arrival dest_iata fs with
            | [] => fs
            | (_ :: _) as m => m
            end).

(** The note after the table: the count left by the last pass decides. *)
Definition table_note (rows : list value) : string :=
  if (last (map meaningful_of rows) 0 <? 3)%nat then nl ++ advisory
  else EmptyString.

(** The credential is set: [os.getenv] gives a non-empty key. *)
Definition credential (w : world) (key : string) : Prop :=
  getenv w "RAPIDAPI_KEY" = Some key /\ key <> EmptyString.

(** A successful response carrying [data]. *)
Definition ok (data : value) : http_outcome :=
  Responded (mkResponse None (inr data)).

(** What a call site gets from an outcome: the decoded body or the
    exception of [requests.get], [raise_for_status] or [json()]. *)
Definition decode (o : http_outcome) : res value :=
  match o with
  | ConnError msg => rraise (RequestException msg)
  | Responded r => (_ <- raise_for_status r ;; json r)%res
  end.

(** What [fetch_realtime_flights] returns when its [try] block raises [e]. *)
Definition flights_error_text (e : exn) (origin destination departure_date : string)
    (return_date : option string) (adults : Z) : string :=
  "[API error: " ++ exn_str e ++ "] Falling back to mock data." ++ nl ++
  mock_search_flights origin destination departure_date return_date adults.

(** From the trace [tr], the two airport lookups resolve [origin] to [o]
    and [destination] to [d] and leave the trace [tr']. *)
Definition resolves (w : world) (tr : list request)
    (origin destination : string) (o d : value) (tr' : list request) : Prop :=
  exists tr1,
    get_iata_code w origin tr = (inr o, tr1) /\
    get_iata_code w destination tr1 = (inr d, tr').

(** ... and the departures endpoint then answers [answer]. *)
Definition provider_answers (w : world) (tr : list request)
    (origin destination key : string) (o d : value) (tr' : list request)
    (answer : http_outcome) : Prop :=
  resolves w tr origin destination o d tr' /\
  network w tr' (flights_request key o) = answer.

(** Following the spec of the airport-code resolver: the code of the first
    result of a lookup that succeeded, when there is one. *)
Definition first_result_code (o : http_outcome) : option value :=
  match o with
  | Responded (mkResponse None (inr (VDict kvs))) =>
      match dict_get kvs "items" with
      | Some (VList (VDict item :: _)) =>
          match dict_get item "iata" with
          | Some c => if truthy c then Some c else None
          | None => None
          end
      | _ => None
      end
  | _ => None
  end.

(** Following the spec of the hotel normalizer: the organic results of a
    payload, and whether an entry has a title containing "hotel" or "inn",
    case-insensitively. *)
Definition organic_entries (kvs : list (string * value)) : list value :=
  match dict_get kvs "organic_results" with
  | Some (VList l) => l
  | _ => []
  end.

Definition title_mentions_hotel (item : value) : bool :=
  match item with
  | VDict fields =>
      match dict_get fields "title" with
      | Some (VStr t) => contains "hotel" (lower t) || contains "inn" (lower t)
      | _ => false
      end
  | _ => false
  end.

(** An organic entry the scan can read: a mapping whose title, when
    present, is a string. *)
Definition readable_entry (item : value) : bool :=
  match item with
  | VDict fields =>
      match dict_get fields "title" with
      | Some (VStr _) | None => true
      | Some _ => false
      end
  | _ => false
  end.

(** The organic-results section is absent or a list. *)
Definition organic_section_ok (kvs : list (string * value)) : bool :=
  match dict_get kvs "organic_results" with
  | Some (VList _) | None => true
  | Some _ => false
  end.

(** ** Sample worlds and payloads *)

Definition env_with_key (k : string) : string -> option string :=
  fun name => if String.eqb name "RAPIDAPI_KEY" then Some k else None.

Definition no_env : string -> option string := fun _ => None.

Definition airport_search_prefix : string :=
  "https://aerodatabox.p.rapidapi.com/airports/search/term/".

(** A network that answers the airport search with [lookup] and every
    other request with [answer]. *)
Definition provider (env : string -> option string)
    (lookup answer : http_outcome) : world :=
  mkWorld env
    (fun _ req =>
       if String.prefix airport_search_prefix (req_url req) then lookup
       else answer).

(** A network that is down. *)
Definition offline (env : string -> option string) : world :=
  mkWorld env (fun _ _ => ConnError "timed out").

Definition no_items : value := VDict [("items", VList [])].

Definition cdg_items : value :=
  VDict [("items", VList [VDict [("iata", VStr "CDG"); ("name", VStr "Paris")]])].

Definition grand_inn_payload : value :=
  VDict [("organic_results",
          VList [VDict [("title", VStr "Grand Inn Paris");
                        ("address", VStr "1 Rue X")]])].

Definition null_title_payload : value :=
  VDict [("organic_results", VList [VDict [("title", VNone)]])].

Definition museum_payload : value :=
  VDict [("organic_results",
          VList [VDict [("title", VStr "Louvre Museum")]; VDict []])].

Definition full_record : value :=
  VDict [("airlineName", VStr "Air France"); ("flightNumber", VStr "AF 7");
         ("scheduledTimeLocal", VStr "2024-06-01 10:00");
         ("aircraftModel", VStr "A350"); ("arrivalIata", VStr "CDG")].

Definition bare_record : value := VDict [("arrivalIata", VStr "CDG")].

Definition other_record : value :=
  VDict [("airlineName", VStr "Delta"); ("flightNumber", VStr "DL 1");
         ("scheduledTimeLocal", VStr "2024-06-01 11:00");
         ("arrivalIata", VStr "ATL")].

Definition two_rows_payload : value :=
  VDict [("departures", VList [full_record; bare_record])].

Definition mixed_payload : value :=
  VDict [("departures", VList [other_record; full_record])].

Definition no_departures_payload : value := VDict [("departures", VList [])].

Definition two_rows_world : world :=
  provider (env_with_key "k") (ok no_items) (ok two_rows_payload).

Definition mixed_world : world :=
  provider (env_with_key "k") (ok no_items) (ok mixed_payload).

(** Another key, the airport search down, the same departures. *)
Definition mixed_world' : world :=
  provider (env_with_key "another key") (ConnError "timed out")
    (ok mixed_payload).

Definition no_departures_world : world :=
  provider (env_with_key "k") (ok cdg_items) (ok no_departures_payload).

Definition grand_inn_world : world :=
  provider no_env (ok no_items) (ok grand_inn_payload).

Definition null_title_world : world :=
  provider no_env (ok no_items) (ok null_title_payload).

Definition museum_world : world :=
  provider no_env (ok no_items) (ok museum_payload).

(** Stand-ins for the renderings of the runtime in the sample runs; the
    sample payloads hold strings only, so none of the three shows in a
    table. *)
Definition sample_float_repr (f : spec_float) : string :=
  match f with
  | S754_nan => "nan"
  | S754_infinity s => if s then "-inf" else "inf"
  | S754_zero s => if s then "-0.0" else "0.0"
  | S754_finite _ _ _ => "1.0"
  end.

Definition sample_str_repr (s : string) : string := "'" ++ s ++ "'".

Definition sample_json_dumps (v : value) : string :=
  match v with
  | VDict [] => "{}"
  | _ => "{ ... }"
  end.

(** Messages as CPython 3.11 words them, for the sample runs. *)
Definition sample_exn_str (e : exn) : string :=
  match e with
  | RequestException msg | HTTPError msg | JSONDecodeError msg => msg
  | AttributeError ty attr =>
      "'" ++ ty ++ "' object has no attribute '" ++ attr ++ "'"
  | NotIterable ty => "'" ++ ty ++ "' object is not iterable"
  | NotContainer ty => "argument of type '" ++ ty ++ "' is not iterable"
  | BadSubscript ty _ => "'" ++ ty ++ "' object is not subscriptable"
  | BadSlice ty => "'" ++ ty ++ "' object is not subscriptable"
  end.

(** * The planner: itineraries and the language-model layer *)

(** ** [TravelItinerary] *)

(** An element of [self.days]: a [DayPlan] object, or a day that is not a
    dict and is kept as it came. *)
Inductive day_entry : Type :=
| DayPlan (day activities meals accommodation budget_estimate : value)
| RawDay (d : value).

Record TravelItinerary : Type := mkItinerary {
  it_destination : value;
  it_duration : value;
  it_total_budget : value;
  it_days : list day_entry;
  it_additional_tips : value;
  it_hotels : value;
  it_flights : value
}.

(** One pass of the loop of [__init__]: what is appended for [d]. *)
Definition normalize_day (d : value) : res day_entry :=
  if is_dict d then
    (day <- py_get d "day" VNone ;;
     activities <- py_get d "activities" (VList []) ;;
     meals <- py_get d "meals" (VList []) ;;
     accommodation <- py_get d "accommodation" (VStr EmptyString) ;;
     budget_estimate <- py_get d "budget_estimate" (VStr EmptyString) ;;
     rret (DayPlan day activities meals accommodation budget_estimate))%res
  else rret (RawDay d).

Fixpoint normalize_days (ds : list value) (normalized_days : list day_entry)
    : res (list day_entry) :=
  match ds with
  | [] => rret normalized_days
  | d :: rest =>
      (entry <- normalize_day d ;;
       normalize_days rest (normalized_days ++ [entry])%list)%res
  end.

(** [TravelItinerary.__init__]; the loop runs over [days or []]. *)
Definition TravelItinerary_init
    (destination duration total_budget days additional_tips hotels flights
     : value) : res TravelItinerary :=
  (ds <- py_iter (if truthy days then days else VList []) ;;
   normalized_days <- normalize_days ds [] ;;
   rret (mkItinerary destination duration total_budget normalized_days
           additional_tips hotels flights))%res.

(** [DayPlan.to_dict], and the [d.to_dict() if hasattr(d, 'to_dict') else d]
    of [TravelItinerary.dict]. *)
Definition to_dict (e : day_entry) : value :=
  match e with
  | DayPlan day activities meals accommodation budget_estimate =>
      VDict [("day", day); ("activities", activities); ("meals", meals);
             ("accommodation", accommodation);
             ("budget_estimate", budget_estimate)]
  | RawDay d => d
  end.

(** [TravelItinerary.dict] *)
Definition TravelItinerary_dict (it : TravelItinerary) : value :=
  VDict [("destination", it_destination it);
         ("duration", it_duration it);
         ("total_budget", it_total_budget it);
         ("days", VList (map to_dict (it_days it)));
         ("additional_tips", it_additional_tips it);
         ("hotels", it_hotels it);
         ("flights", it_flights it)].

(** ** The language-model layer

    Every handler of this layer is a catch-all and only [str(e)] of an
    exception is ever used, so an exception of a language-model call is
    its text: a call gives [inl text] when it raises and [inr answer]
    otherwise. *)
Definition answer : Type := (string + string)%type.

(** What [client.chat(...)] returned: [response.choices[0].message.content]
    when that access succeeds, the attribute [content] when the response
    has one, and [str(response)]. *)
Record chat_response : Type := mkChatResponse {
  first_choice_content : option string;
  content_attr : option string;
  response_str : string
}.

(** The [mistralai] package: [make_client key] is [Some text] when the
    import or [MistralClient(api_key=key)] raises; [client_chat key model
    prompt] is [client.chat] with the one user message [prompt] and
    temperature 0.7, on the client of [key]. *)
Record mistral_lib : Type := mkMistral {
  make_client : string -> option string;
  client_chat : string -> string -> string -> string + chat_response
}.

(** The optional LangChain package: whether its imports succeeded;
    [MistralLangChainLLM(client)], which raises or gives an object called
    as [llm(prompt)]; and the construction of the prompt template, the
    memory and the [LLMChain] over an llm, [None] when it raises, else
    what [chain.run] does with the four inputs. *)
Record langchain_lib : Type := mkLangChain {
  LANGCHAIN_PRESENT : bool;
  langchain_llm : string -> string + (string -> answer);
  llm_chain : (string -> answer) ->
              option (string -> string -> string -> string -> answer)
}.

(** [get_mistral_client]; the client is known by its key. *)
Definition get_mistral_client (w : world) (mi : mistral_lib) : string + string :=
  let api_key := getenv w "MISTRAL_API_KEY" in
  if env_falsy api_key then inl "MISTRAL_API_KEY not set."
  else
    let key := match api_key with Some k => k | None => EmptyString end in
    match make_client mi key with
    | Some text => inl text
    | None => inr key
    end.

(** [MistralLLMCallable.__call__] without keyword arguments, as every
    call site has it. *)
Definition mistral_call (mi : mistral_lib) (client prompt : string) : answer :=
  match client_chat mi client "mistral-tiny" prompt with
  | inl text => inl text
  | inr response =>
      inr (match first_choice_content response with
           | Some content => content
           | None =>
               match content_attr response with
               | Some content => content
               | None => response_str response
               end
           end)
  end.

(** [get_mistral_llm] *)
Definition get_mistral_llm (w : world) (mi : mistral_lib)
    : string + (string -> answer) :=
  match get_mistral_client w mi with
  | inl text => inl text
  | inr client => inr (mistral_call mi client)
  end.

(** [get_langchain_llm] *)
Definition get_langchain_llm (w : world) (mi : mistral_lib)
    (lc : langchain_lib) : string + (string -> answer) :=
  match get_mistral_client w mi with
  | inl text => inl text
  | inr client => langchain_llm lc client
  end.

(** [get_llm] *)
Definition get_llm (w : world) (mi : mistral_lib) (lc : langchain_lib)
    : string + (string -> answer) :=
  if LANGCHAIN_PRESENT lc then
    match get_langchain_llm w mi lc with
    | inr llm => inr llm
    | inl _ => get_mistral_llm w mi
    end
  else get_mistral_llm w mi.

(** The prompt of [get_mistral_insights]. *)
Definition insights_prompt (destination duration budget interests : string)
    : string :=
  "You are a travel expert. Create comprehensive travel insights for a trip to "
  ++ destination ++ " for " ++ duration ++ " with a " ++ budget ++
  " budget. Interests: " ++ interests ++ "." ++ nl ++
  "Respond in markdown with:" ++ nl ++ "- Top attractions" ++ nl ++
  "- Local tips" ++ nl ++ "- Best time to visit" ++ nl ++
  "- Estimated daily budget" ++ nl ++ "- Safety and cultural notes" ++ nl.

(** [get_mistral_insights] *)
Definition get_mistral_insights (w : world) (mi : mistral_lib)
    (destination duration budget interests : string) : answer :=
  match get_mistral_llm w mi with
  | inl text => inl text
  | inr llm => llm (insights_prompt destination duration budget interests)
  end.

(** ** [TravelPlanner] *)

(** The two attributes the methods read: [self.chain], as its [run] on
    the four inputs, and [self.llm]. *)
Record TravelPlanner : Type := mkPlanner {
  chain : option (string -> string -> string -> string -> answer);
  llm : option (string -> answer)
}.

(** [TravelPlanner.__init__] *)
Definition TravelPlanner_init (w : world) (mi : mistral_lib)
    (lc : langchain_lib) : TravelPlanner :=
  let llm := match get_llm w mi lc with
             | inr f => Some f
             | inl _ => None
             end in
  let chain := if LANGCHAIN_PRESENT lc then
                 match llm with
                 | Some f => llm_chain lc f
                 | None => None
                 end
               else None in
  mkPlanner chain llm.

(** [re.search(r"\{.*\}", output, re.DOTALL)], as [m.group(0)]: from the
    first opening brace to the last closing brace after it. *)
Definition open_brace : ascii := ascii_of_nat 123.
Definition close_brace : ascii := ascii_of_nat 125.

Fixpoint from_first_brace (s : string) : option string :=
  match s with
  | EmptyString => None
  | String c r =>
      if Ascii.eqb c open_brace then Some s else from_first_brace r
  end.

Fixpoint upto_last_brace (s : string) : option string :=
  match s with
  | EmptyString => None
  | String c r =>
      match upto_last_brace r with
      | Some t => Some (String c t)
      | None =>
          if Ascii.eqb c close_brace then Some (String c EmptyString)
          else None
      end
  end.

Definition brace_span (output : string) : option string :=
  match from_first_brace output with
  | Some t => upto_last_brace t
  | None => None
  end.

(** [json.loads]: [None] when it raises. *)
Variable json_loads : string -> option value.

(** The parsing of the model's output in [generate_itinerary]: the value
    of [data] after the two nested [try] blocks. *)
Definition parse_output (output : string) : value :=
  match json_loads output with
  | Some data => data
  | None =>
      match brace_span output with
      | Some span =>
          match json_loads span with
          | Some data => data
          | None => VNone
          end
      | None => VNone
      end
  end.

Definition itinerary_prompt (destination duration budget interests : string)
    : string :=
  "You are a travel expert. Create a detailed travel itinerary for a trip to "
  ++ destination ++ " for " ++ duration ++ " with a " ++ budget ++
  " budget. Interests: " ++ interests ++ "." ++ nl ++
  "Respond in JSON with fields: destination, duration, total_budget, days (list), additional_tips.".

(** The value of [data] when the first [if] of [generate_itinerary] is
    over. *)
Definition itinerary_data (p : TravelPlanner)
    (destination duration budget interests : string) : value :=
  match chain p with
  | Some run =>
      match run destination duration budget interests with
      | inr output => parse_output output
      | inl _ => VNone
      end
  | None =>
      match llm p with
      | Some call =>
          match call (itinerary_prompt destination duration budget interests) with
          | inr output => parse_output output
          | inl _ => VNone
          end
      | None => VNone
      end
  end.

(** The three [strftime] results a call of [generate_itinerary] reads:
    today and three days on for the hotels, today for the flights. *)
Record dates : Type := mkDates {
  check_in_date : string;
  check_out_date : string;
  flight_date : string
}.

(** [[{...} for i in range(3)]] *)
Definition placeholder_days (destination : string) : value :=
  VList (map (fun i : Z =>
                VDict [("day", VInt (i + 1));
                       ("activities",
                        VList [VStr ("Sightseeing in " ++ destination);
                               VStr "Local meal"]);
                       ("meals",
                        VList [VStr "Breakfast"; VStr "Lunch"; VStr "Dinner"]);
                       ("accommodation", VStr "Central hotel");
                       ("budget_estimate", VStr "$50-$150")])
             [0; 1; 2]%Z).

(** The two guarded searches, which both branches of [generate_itinerary]
    make: [None] stands in for a search that raised. *)
Definition search_both (w : world) (ds : dates) (destination : string)
    : M (value * value) :=
  (hotels <- mtry (s <- serpapi_search_hotels w destination
                          (check_in_date ds) (check_out_date ds) 2 ;;
                   mret (VStr s))
                  (fun _ => mret VNone) ;;
   flights <- mtry (s <- fetch_realtime_flights w "YourCity" destination
                           (flight_date ds) None 1 ;;
                    mret (VStr s))
                   (fun _ => mret VNone) ;;
   mret (hotels, flights))%M.

(** [TravelPlanner.generate_itinerary] *)
Definition generate_itinerary (p : TravelPlanner) (w : world) (ds : dates)
    (destination duration budget interests : string) : M TravelItinerary :=
  let data := itinerary_data p destination duration budget interests in
  if negb (truthy data) then
    (found <- search_both w ds destination ;;
     mlift (TravelItinerary_init (VStr destination) (VStr duration)
              (VStr "$150-450") (placeholder_days destination)
              (VList [VStr "Carry a reusable water bottle."])
              (fst found) (snd found)))%M
  else
    (found <- search_both w ds destination ;;
     mlift (destination' <- py_get data "destination" (VStr destination) ;;
            duration' <- py_get data "duration" (VStr duration) ;;
            total_budget <- py_get data "total_budget" (VStr "$150-450") ;;
            days <- py_get data "days" (VList []) ;;
            additional_tips <- py_get data "additional_tips" (VList []) ;;
            TravelItinerary_init destination' duration' total_budget days
              additional_tips (fst found) (snd found))%res)%M.

(** [TravelPlanner.search_hotels] and [TravelPlanner.search_flights] *)
Definition search_hotels (p : TravelPlanner) (w : world)
    (destination check_in check_out : string) (adults : Z) : M string :=
  serpapi_search_hotels w destination check_in check_out adults.

Definition search_flights (p : TravelPlanner) (w : world)
    (origin destination departure_date : string)
    (return_date : option string) (adults : Z) : M string :=
  fetch_realtime_flights w origin destination departure_date return_date adults.

Definition no_ai_sentence : string :=
  "I can't access the AI right now, but I can help with basic travel info.".

(** [TravelPlanner.chat] *)
Definition chat (p : TravelPlanner) (prompt : string) : string :=
  let chat_prompt :=
    "You are a helpful travel assistant. Answer the user's question about travel."
    ++ nl ++ "User: " ++ prompt ++ nl ++ "Assistant:" in
  match llm p with
  | None => no_ai_sentence
  | Some call =>
      match call chat_prompt with
      | inr reply => reply
      | inl _ => no_ai_sentence
      end
  end.

Definition packing_tips : string :=
  "Pack light, check local weather, and keep digital copies of your documents.".

(** [TravelPlanner.get_travel_recommendations]; the call of the model is
    not guarded. *)
Definition get_travel_recommendations (p : TravelPlanner) (query : string)
    : answer :=
  let tips_prompt :=
    "Give concise travel tips or recommendations for: " ++ query in
  match llm p with
  | None => inr packing_tips
  | Some call => call tips_prompt
  end.

(** [realtime_api.get_travel_insights_realtime], with the planner
    instance [p] of [travel_planner_simple]; both [try] blocks are
    catch-alls. *)
Definition get_travel_insights_realtime (w : world) (mi : mistral_lib)
    (p : TravelPlanner) (destination duration budget interests : string)
    : string :=
  let preferred :=
    if env_falsy (getenv w "MISTRAL_API_KEY") then None
    else
      match get_mistral_insights w mi destination duration budget interests with
      | inr insights => Some insights
      | inl _ => None
      end in
  match preferred with
  | Some insights => insights
  | None =>
      match get_travel_recommendations p
              (destination ++ " (" ++ duration ++ ") — budget: " ++ budget
               ++ "; interests: " ++ interests) with
      | inr tips => tips
      | inl text => "No realtime insights available (fallback): " ++ text
      end
  end.

(** ** Reading the planner *)

(** The twelve cells of a row. *)
Definition all_cells (c : flight_cells) : list value :=
  [airline c; flight_num c; dep_time c; dep_airport c; arr_time c;
   arr_airport c; duration c; status c; terminal c; gate c; aircraft c;
   baggage c].

(** The entry appended for an organic result, the row of a hotel, and the
    entry of a day, read off the source's own functions. *)
Definition entry_of (item : value) : value :=
  match hotel_entry item with
  | inr entry => entry
  | inl _ => VNone
  end.

Definition hotel_row_of (h : value) : string :=
  match hotel_row h with
  | inr row => row
  | inl _ => EmptyString
  end.

Definition day_of (d : value) : day_entry :=
  match normalize_day d with
  | inr entry => entry
  | inl _ => RawDay d
  end.

(** The list of hotels the [local_results] section gives: the section
    itself when it is a list, its [places] when it is a mapping. *)
Definition local_list (kvs : list (string * value)) : option value :=
  match dict_get kvs "local_results" with
  | Some (VList hs) => Some (VList hs)
  | Some (VDict lr) => dict_get lr "places"
  | _ => None
  end.

(** A day as the downloaded JSON shows it: a mapping keeps its five
    fields, with the defaults of [__init__] for the missing ones; anything
    else is kept. *)
Definition field (kvs : list (string * value)) (k : string) (default : value)
    : value :=
  match dict_get kvs k with
  | Some v => v
  | None => default
  end.

Definition day_json (d : value) : value :=
  match d with
  | VDict kvs =>
      VDict [("day", field kvs "day" VNone);
             ("activities", field kvs "activities" (VList []));
             ("meals", field kvs "meals" (VList []));
             ("accommodation", field kvs "accommodation" (VStr EmptyString));
             ("budget_estimate", field kvs "budget_estimate" (VStr EmptyString))]
  | _ => d
  end.

(** [c in s] for a character *)
Fixpoint has_char (c : ascii) (s : string) : bool :=
  match s with
  | EmptyString => false
  | String c' r => Ascii.eqb c' c || has_char c r
  end.

(** [bool], [int] and [float]: the values a [for] cannot run over and
    that can be truthy. *)
Definition is_number (v : value) : bool :=
  match v with
  | VBool _ | VInt _ | VFloat _ => true
  | _ => false
  end.

(** ** Sample planners and model answers *)

Definition sample_dates : dates :=
  mkDates "2024-06-01" "2024-06-04" "2024-06-01".

Definition no_model : TravelPlanner := mkPlanner None None.

Definition double_quote : string := String (ascii_of_nat 34) EmptyString.

(** The text of the JSON object with the one field [destination], Rome. *)
Definition rome_text : string :=
  "{" ++ double_quote ++ "destination" ++ double_quote ++ ": " ++
  double_quote ++ "Rome" ++ double_quote ++ "}".

Definition rome_data : value := VDict [("destination", VStr "Rome")].

(** A stand-in for [json.loads] that decodes the texts of the sample
    runs and raises on every other text. *)
Definition sample_json_loads (s : string) : option value :=
  if String.eqb s "[1]" then Some (VList [VInt 1])
  else if String.eqb s rome_text then Some rome_data
  else None.

(** Models that answer with a JSON array, and with an object wrapped in
    prose. *)
Definition array_model : TravelPlanner :=
  mkPlanner None (Some (fun _ => inr "[1]")).

Definition chatty_model : TravelPlanner :=
  mkPlanner None
    (Some (fun _ => inr ("Here is your plan: " ++ rome_text ++ " Enjoy!"))).

Definition env_with_mistral (k : string) : string -> option string :=
  fun name => if String.eqb name "MISTRAL_API_KEY" then Some k else None.

Definition louvre_mistral : mistral_lib :=
  mkMistral (fun _ => None)
    (fun _ _ _ => inr (mkChatResponse (Some "Visit the Louvre.") None
                         "ChatCompletionResponse()")).

Definition no_langchain : langchain_lib :=
  mkLangChain false (fun _ => inl "No module named 'langchain'")
    (fun _ => None).

Definition sample_days : list value :=
  [VDict [("day", VInt 1); ("activities", VList [VStr "Colosseum"]);
          ("notes", VStr "bring water")];
   VStr "free day"].

Definition with_langchain : langchain_lib :=
  mkLangChain true
    (fun _ => inr (fun _ => inr "[1]"))
    (fun call => Some (fun destination _ _ _ => call destination)).

Definition bad_record_payload : value :=
  VDict [("departures", VList [full_record; VStr "delayed"])].

Definition bad_record_world : world :=
  provider (env_with_key "k") (ok no_items) (ok bad_record_payload).

Definition ritz : value :=
  VDict [("title", VStr "HOTEL Ritz"); ("link", VStr "https://ritz.example")].

Definition organic_payload : value :=
  VDict [("organic_results",
          VList [VDict [("title", VStr "Louvre Museum")]; ritz;
                 VDict [("title", VStr "Grand Inn Paris");
                        ("address", VStr "1 Rue X")]])].

Definition organic_world : world :=
  provider no_env (ok no_items) (ok organic_payload).

Definition places_payload : value :=
  VDict [("local_results", VDict [("places", VList [ritz])]);
         ("organic_results",
          VList [VDict [("title", VStr "Grand Inn Paris")]])].

Definition places_world : world :=
  provider no_env (ok no_items) (ok places_payload).

Definition full_cells : flight_cells :=
  mkCells (VStr "Air France") (VStr "AF 7") (VStr "2024-06-01 10:00")
    (VStr "N/A") (VStr "N/A") (VStr "N/A") (VStr "N/A") (VStr "N/A")
    (VStr "N/A") (VStr "N/A") (VStr "A350") (VStr "N/A").

Definition array_payload_world : world :=
  provider (env_with_key "k") (ok no_items) (ok (VList [])).

Definition null_payload_world : world :=
  provider no_env (ok no_items) (ok VNone).

(** ** The flight table, following the spec

    Each of the twelve attributes of a row has an ordered list of
    candidate paths; its cell is the value at the first candidate that is
    truthy, and "N/A" when there is none.  [true] marks the seven key
    attributes. *)
Definition attribute_paths : list (bool * list (list string)) :=
  [(true, [["airline"; "name"]; ["airlineName"]; ["operatingAirline"; "name"]]);
   (true, [["flightNumber"]; ["number"]; ["flight"; "number"]]);
   (true, [["scheduledTimeLocal"]; ["departure"; "scheduledTimeLocal"];
           ["departure"; "actualTimeLocal"]]);
   (true, [["airport"; "name"]; ["departure"; "airport"; "name"];
           ["departure"; "airportName"]]);
   (true, [["arrival"; "scheduledTimeLocal"]; ["arrival"; "actualTimeLocal"]]);
   (true, [["arrival"; "airport"; "name"]; ["arrival"; "airportName"]]);
   (false, [["flightDuration"]; ["duration"]]);
   (false, [["status"]; ["status"; "name"]]);
   (false, [["terminal"]; ["departure"; "terminal"]; ["arrival"; "terminal"]]);
   (false, [["gate"]; ["departure"; "gate"]; ["arrival"; "gate"]]);
   (true, [["aircraft"; "model"]; ["aircraftModel"]; ["aircraft"; "type"]]);
   (false, [["baggageBelt"]; ["arrival"; "baggageBelt"]])].

Definition first_of (f : value) (paths : list (list string)) : value :=
  match find (fun p => truthy (path_or_none f p)) paths with
  | Some p => path_or_none f p
  | None => VStr "N/A"
  end.

Definition spec_cells (f : value) : list value :=
  map (fun a => first_of f (snd a)) attribute_paths.

(** The row of a record: its twelve cells between bars. *)
Definition spec_row (f : value) : string :=
  "|" ++ fold_right (fun v rest => " " ++ py_str v ++ " |" ++ rest) nl
           (spec_cells f).

(** How many of the seven key attributes of a record resolve to
    something else than "N/A". *)
Definition spec_meaningful (f : value) : nat :=
  length (filter (fun a => fst a &&
                           negb (py_eq (first_of f (snd a)) (VStr "N/A")))
            attribute_paths).

(** The arrival code of a record: the first truthy of its three
    candidates, else the value at the last one. *)
Definition spec_arrival (f : value) : value :=
  or_val (path_or_none f ["arrival"; "airport"; "iata"])
    (or_val (path_or_none f ["arrival"; "iata"])
       (path_or_none f ["arrivalIata"])).

(** * Properties *)

(** ** The monads *)

Lemma append_assoc (a b c : string) : (a ++ b) ++ c = a ++ (b ++ c).
Proof.
  induction a as [|x a IH]; simpl; [reflexivity | now rewrite IH].
Qed.

Lemma append_nil_r (a : string) : a ++ EmptyString = a.
Proof.
  induction a as [|x a IH]; simpl; [reflexivity | now rewrite IH].
Qed.

Lemma py_or_inr (x y : value) : py_or (inr x) (inr y) = inr (or_val x y).
Proof.
  unfold py_or, or_val, rbind, rret. now destruct (truthy x).
Qed.

Lemma get_json_decode (w : world) (req : request) (tr : list request) :
  get_json w req tr = (decode (network w tr req), (tr ++ [req])%list).
Proof.
  unfold get_json, mbind, requests_get, mlift, decode.
  destruct (network w tr req) as [msg | r]; [reflexivity |].
  unfold rbind. now destruct (raise_for_status r) as [e | []].
Qed.

(** ** [nested_get] *)

Lemma nested_get_path (path : list string) :
  forall d, nested_get d path = inr (path_or_none d path).
Proof.
  induction path as [|p rest IH]; intros d; [reflexivity |].
  destruct d; try reflexivity.
  unfold path_or_none. simpl.
  destruct (dict_get kvs p) as [v |]; simpl; [| reflexivity].
  destruct (is_none v) eqn:Hv.
  - destruct v; try discriminate. now destruct rest.
  - rewrite IH. reflexivity.
Qed.

Lemma get_arrival_iata_total (f : value) :
  get_arrival_iata f = inr (arrival_code f).
Proof.
  unfold arrival_code, get_arrival_iata.
  rewrite !nested_get_path, !py_or_inr. reflexivity.
Qed.

Lemma filter_arrival_matching (d : value) (fs : list value) :
  filter_arrival d fs = inr (matching_arrival d fs).
Proof.
  induction fs as [|f fs IH]; [reflexivity |].
  simpl. rewrite get_arrival_iata_total, IH. simpl.
  now destruct (py_eq (arrival_code f) d).
Qed.

(** ** Rows of the flight table *)

Lemma resolve_cells_dict (kvs : list (string * value)) :
  exists c, resolve_cells (VDict kvs) = inr c.
Proof.
  unfold resolve_cells, NA, py_get, rret.
  rewrite !nested_get_path, !py_or_inr.
  unfold rbind. eexists. reflexivity.
Qed.

Lemma last_cons (A : Type) (x : A) (l : list A) (d : A) :
  last (x :: l) d = last l x.
Proof.
  revert x d. induction l as [|y l IH]; intros x d; [reflexivity |].
  change (last (x :: y :: l) d) with (last (y :: l) d).
  rewrite !IH. reflexivity.
Qed.

Lemma concat_cons (x : string) (xs : list string) :
  String.concat EmptyString (x :: xs) = x ++ String.concat EmptyString xs.
Proof.
  destruct xs; simpl; [now rewrite append_nil_r | reflexivity].
Qed.

Lemma render_flights_dicts (fs : list value) :
  Forall (fun f => is_dict f = true) fs ->
  forall result m,
    render_flights fs result m =
    inr (result ++ String.concat EmptyString (map row_of fs),
         last (map meaningful_of fs) m).
Proof.
  induction 1 as [|f fs Hf _ IH]; intros result m.
  - cbn [render_flights map String.concat last].
    now rewrite append_nil_r.
  - destruct f; try discriminate.
    destruct (resolve_cells_dict kvs) as [c Hc].
    assert (Hrow : row_of (VDict kvs) = flight_row c)
      by (unfold row_of; now rewrite Hc).
    assert (Hcount : meaningful_of (VDict kvs) = count_meaningful c)
      by (unfold meaningful_of; now rewrite Hc).
    cbn [render_flights map].
    rewrite concat_cons, last_cons, Hrow, Hcount, Hc.
    cbn [rbind]. rewrite IH, append_assoc. reflexivity.
Qed.

(** ** The three entry points, as equations *)

Lemma get_iata_code_eq (w : world) (city_name : string) (tr : list request) :
  get_iata_code w city_name tr =
  match getenv w "RAPIDAPI_KEY" with
  | Some ((String _ _) as key) =>
      let req := iata_request key city_name in
      (inr (match first_result_code (network w tr req) with
            | Some code => code
            | None => VStr city_name
            end),
       (tr ++ [req])%list)
  | _ => (inr (VStr city_name), tr)
  end.
Proof.
  unfold get_iata_code.
  destruct (getenv w "RAPIDAPI_KEY") as [[|a key] |]; try reflexivity.
  cbn [env_falsy]. unfold mbind, mtry, mlift, mret.
  rewrite get_json_decode. cbv zeta.
  destruct (network w tr (iata_request (String a key) city_name))
    as [msg | [[err |] [bad | data]]]; try reflexivity.
  destruct data as [| | | | | | kvs]; try reflexivity.
  cbn. destruct (dict_get kvs "items") as [items |]; [| reflexivity].
  destruct items as [| [] | z | [] | [|c s] | [|first rest] | [|kv kvs']];
    try reflexivity.
  - cbn. now destruct (z =? 0)%Z.
  - cbn -[utf8_chars]. now destruct (utf8_chars (String c s)).
  - destruct first as [| | | | | | item]; try reflexivity.
    cbn. destruct (dict_get item "iata") as [code |]; [| reflexivity].
    cbn. now destruct (truthy code).
Qed.

Lemma get_iata_code_total (w : world) (city_name : string) (tr : list request) :
  exists v tr', get_iata_code w city_name tr = (inr v, tr').
Proof.
  rewrite get_iata_code_eq.
  destruct (getenv w "RAPIDAPI_KEY") as [[|a key] |]; cbv zeta; eauto.
Qed.

Lemma fetch_realtime_flights_eq (w : world) (tr tr' : list request)
    (origin destination key departure_date : string) (o d : value)
    (return_date : option string) (adults : Z) :
  credential w key ->
  resolves w tr origin destination o d tr' ->
  fetch_realtime_flights w origin destination departure_date return_date adults tr =
  (inr (match (data <- decode (network w tr' (flights_request key o)) ;;
               flights_of_payload o d departure_date data)%res with
        | inr s => s
        | inl e => flights_error_text e origin destination departure_date
                     return_date adults
        end),
   (tr' ++ [flights_request key o])%list).
Proof.
  intros [Hkey Hne] (tr1 & Ho & Hd).
  unfold fetch_realtime_flights, mbind.
  rewrite Ho, Hd, Hkey.
  destruct key as [|a key]; [congruence |].
  cbn [env_falsy]. unfold mtry, flights_attempt, mbind, mlift.
  rewrite get_json_decode.
  destruct (decode _) as [e | data]; [reflexivity |].
  cbn [rbind]. now destruct (flights_of_payload _ _ _ _).
Qed.

Lemma serpapi_search_hotels_eq (w : world)
    (destination check_in check_out : string) (adults : Z) (tr : list request) :
  serpapi_search_hotels w destination check_in check_out adults tr =
  (inr (match (data <- decode (network w tr (serpapi_request w destination)) ;;
               hotels_of_payload data)%res with
        | inr s => s
        | inl e => "[SerpAPI error: " ++ exn_str e ++ "]"
        end),
   (tr ++ [serpapi_request w destination])%list).
Proof.
  unfold serpapi_search_hotels, mtry, serpapi_attempt, mbind, mlift.
  rewrite get_json_decode.
  destruct (decode _) as [e | data]; [reflexivity |].
  cbn [rbind]. now destruct (hotels_of_payload data).
Qed.

(** ** The flight table of a payload *)

Lemma Forall_firstn (A : Type) (P : A -> Prop) (n : nat) (l : list A) :
  Forall P l -> Forall P (firstn n l).
Proof.
  intros H. revert n.
  induction H as [|x l Hx _ IH]; intros [|n]; simpl; auto.
Qed.

Lemma Forall_filter (A : Type) (P : A -> Prop) (f : A -> bool) (l : list A) :
  Forall P l -> Forall P (filter f l).
Proof.
  induction 1 as [|x l Hx _ IH]; simpl; [constructor |].
  destruct (f x); auto.
Qed.

Lemma length_firstn_le5 (A : Type) (l : list A) : (length (firstn 5 l) <= 5)%nat.
Proof.
  rewrite length_firstn. apply Nat.le_min_l.
Qed.

Lemma firstn_idem (A : Type) (n : nat) (l : list A) :
  firstn n (firstn n l) = firstn n l.
Proof.
  revert l. induction n as [|n IH]; intros [|x l]; simpl; congruence.
Qed.

Lemma rendered_records_dicts (d : value) (fs : list value) :
  Forall (fun f => is_dict f = true) fs ->
  Forall (fun f => is_dict f = true) (rendered_records d fs).
Proof.
  intros H. unfold rendered_records. apply Forall_firstn.
  pose proof (Forall_filter _ _ (fun f => py_eq (arrival_code f) d) _ H) as Hm.
  fold (matching_arrival d fs) in Hm.
  now destruct (matching_arrival d fs).
Qed.

Lemma flights_of_payload_table (o d : value) (departure_date : string)
    (kvs : list (string * value)) (flights : list value) :
  dict_get kvs "departures" = Some (VList flights) ->
  flights <> [] ->
  Forall (fun f => is_dict f = true) flights ->
  flights_of_payload o d departure_date (VDict kvs) =
  inr (flight_table_header o d departure_date ++
       String.concat EmptyString (map row_of (rendered_records d flights)) ++
       table_note (rendered_records d flights)).
Proof.
  intros Hdep Hne Hdicts.
  pose proof (rendered_records_dicts d flights Hdicts) as Hrows.
  unfold flights_of_payload, py_get. rewrite Hdep.
  destruct flights as [|f0 fs0]; [congruence |].
  set (flights := f0 :: fs0) in *.
  cbn [rret rbind truthy negb py_iter]. subst flights.
  cbn [truthy negb py_iter rbind rret].
  rewrite filter_arrival_matching. cbn [rbind].
  unfold rendered_records, table_note in *.
  destruct (matching_arrival d (f0 :: fs0)) as [|m ms].
  - cbn [truthy negb py_slice rbind rret py_iter].
    rewrite firstn_idem, (render_flights_dicts _ Hrows).
    cbn [rbind rret].
    destruct (last _ 0 <? 3)%nat.
    + now rewrite append_assoc.
    + now rewrite append_nil_r.
  - cbn [truthy negb py_slice rbind rret py_iter].
    rewrite (render_flights_dicts _ Hrows).
    cbn [rbind rret].
    destruct (last _ 0 <? 3)%nat.
    + now rewrite append_assoc.
    + now rewrite append_nil_r.
Qed.

(** ** The organic scan of the hotel search *)

Lemma scan_organic_nothing (items : list value) (hotels : value) :
  forallb readable_entry items = true ->
  forallb (fun item => negb (title_mentions_hotel item)) items = true ->
  scan_organic items hotels = inr hotels.
Proof.
  induction items as [|item items IH]; [reflexivity |].
  cbn [forallb]. intros Hr Hn.
  apply andb_prop in Hr as [Hr Hrs]. apply andb_prop in Hn as [Hn Hns].
  destruct item as [| | | | | | fields]; try discriminate.
  cbn [scan_organic py_get rret rbind].
  unfold readable_entry in Hr. unfold title_mentions_hotel in Hn.
  destruct (dict_get fields "title") as [[| | | | t | |] |]; try discriminate.
  - apply negb_true_iff, orb_false_iff in Hn as [Hh Hi].
    unfold hotel_like, py_lower, rret, rbind. rewrite Hh, Hi. auto.
  - cbn. auto.
Qed.

Lemma hotels_of_payload_nothing (kvs : list (string * value)) :
  dict_get kvs "local_results" = None ->
  organic_section_ok kvs = true ->
  forallb readable_entry (organic_entries kvs) = true ->
  forallb (fun item => negb (title_mentions_hotel item)) (organic_entries kvs)
    = true ->
  hotels_of_payload (VDict kvs) = inr (no_hotels_message (VDict kvs)).
Proof.
  intros Hlocal Hsec Hread Hnone.
  unfold hotels_of_payload, local_hotels, organic_hotels, py_in, py_getitem.
  rewrite Hlocal. cbn [rret rbind truthy negb].
  unfold organic_section_ok in Hsec. unfold organic_entries in Hread, Hnone.
  destruct (dict_get kvs "organic_results") as [[| | | | | l |] |];
    try discriminate; cbn [rret rbind py_iter truthy negb]; [| reflexivity].
  rewrite (scan_organic_nothing l (VList []) Hread Hnone). reflexivity.
Qed.

(** ** The code against the spec's table of attributes *)

Lemma py_get_path (kvs : list (string * value)) (k : string) :
  py_get (VDict kvs) k VNone = inr (path_or_none (VDict kvs) [k]).
Proof.
  unfold py_get, path_or_none, rret. cbn [path_value].
  now destruct (dict_get kvs k).
Qed.

Lemma first_of_cons (f : value) (p : list string) (ps : list (list string)) :
  first_of f (p :: ps) = or_val (path_or_none f p) (first_of f ps).
Proof.
  unfold first_of, or_val. cbn [find].
  now destruct (truthy (path_or_none f p)).
Qed.

Lemma first_of_nil (f : value) : first_of f [] = VStr "N/A".
Proof. reflexivity. Qed.

Lemma first_of_truthy (f : value) (ps : list (list string)) :
  truthy (first_of f ps) = true.
Proof.
  induction ps as [|p ps IH]; [reflexivity |].
  rewrite first_of_cons. unfold or_val.
  now destruct (truthy (path_or_none f p)) eqn:Hp.
Qed.

Lemma resolve_cells_spec (kvs : list (string * value)) :
  exists c,
    resolve_cells (VDict kvs) = inr c /\
    all_cells c = spec_cells (VDict kvs).
Proof.
  unfold resolve_cells, NA, rret.
  rewrite !py_get_path, !nested_get_path, !py_or_inr.
  unfold rbind. eexists. split; [reflexivity |].
  unfold spec_cells, attribute_paths. cbn [map snd all_cells airline
    flight_num dep_time dep_airport arr_time arr_airport duration status
    terminal gate aircraft baggage].
  rewrite !first_of_cons, !first_of_nil. reflexivity.
Qed.

Lemma row_of_spec (kvs : list (string * value)) :
  row_of (VDict kvs) = spec_row (VDict kvs).
Proof.
  destruct (resolve_cells_spec kvs) as (c & Hc & Hcells).
  unfold row_of, spec_row. rewrite Hc, <- Hcells.
  destruct c. reflexivity.
Qed.

Lemma resolved_first_of (f : value) (ps : list (list string)) :
  resolved (first_of f ps) = negb (py_eq (first_of f ps) (VStr "N/A")).
Proof.
  unfold resolved. now rewrite first_of_truthy.
Qed.

Lemma meaningful_of_spec (kvs : list (string * value)) :
  meaningful_of (VDict kvs) = spec_meaningful (VDict kvs).
Proof.
  destruct (resolve_cells_spec kvs) as (c & Hc & Hcells).
  unfold meaningful_of. rewrite Hc.
  unfold count_meaningful, key_cells.
  destruct c as [c1 c2 c3 c4 c5 c6 c7 c8 c9 c10 c11 c12].
  cbn [airline flight_num dep_time dep_airport arr_time arr_airport aircraft
       all_cells duration status terminal gate baggage] in *.
  unfold spec_cells, attribute_paths in Hcells. cbn [map snd] in Hcells.
  injection Hcells as -> -> -> -> -> -> -> -> -> -> -> ->.
  unfold spec_meaningful, attribute_paths.
  cbn [filter fst snd andb]. rewrite !resolved_first_of.
  repeat match goal with
         | |- context [negb (py_eq ?a ?b)] =>
             destruct (negb (py_eq a b))
         end; reflexivity.
Qed.

Lemma arrival_code_spec (f : value) : arrival_code f = spec_arrival f.
Proof.
  unfold arrival_code, get_arrival_iata, spec_arrival.
  rewrite !nested_get_path, !py_or_inr. reflexivity.
Qed.

Lemma map_dicts (A : Type) (g h : value -> A) (fs : list value) :
  (forall kvs, g (VDict kvs) = h (VDict kvs)) ->
  Forall (fun f => is_dict f = true) fs ->
  map g fs = map h fs.
Proof.
  intros Hgh. induction 1 as [|f fs Hf _ IH]; [reflexivity |].
  destruct f; try discriminate. cbn [map]. now rewrite Hgh, IH.
Qed.

(** * The claims *)

(** C1, evaluated on a response of two records that both arrive at the
    target: the first resolves four of the seven key attributes (airline,
    flight number, departure time, aircraft), the last none.  The loop
    leaves in [meaningful] the count of the last record only, so the
    advisory is appended although four key attributes resolve across the
    two rendered rows. *)
Theorem advisory_counts_last_row_only :
  fst (fetch_realtime_flights two_rows_world "JFK" "CDG" "2024-06-01" None 1 [])
  =
  inr ("### Real-time flights from JFK to CDG on 2024-06-01" ++ nl ++
       "| Airline | Flight | Departure | Departure Airport | Arrival | Arrival Airport | Duration | Status | Terminal | Gate | Aircraft | Baggage |" ++ nl ++
       "|---|---|---|---|---|---|---|---|---|---|---|---|" ++ nl ++
       "| Air France | AF 7 | 2024-06-01 10:00 | N/A | N/A | N/A | N/A | N/A | N/A | N/A | A350 | N/A |" ++ nl ++
       "| N/A | N/A | N/A | N/A | N/A | N/A | N/A | N/A | N/A | N/A | N/A | N/A |" ++ nl ++
       nl ++ advisory)
  /\ meaningful_of full_record = 4
  /\ meaningful_of bare_record = 0.
Proof.
  repeat split; vm_compute; reflexivity.
Qed.

(** C2: [nested_get] never raises: for every value [d] and every path it
    returns the value at the nested path when every segment is present, and
    [None] when a segment is missing or the container reached is not a
    mapping. *)
Theorem nested_get_contract (d : value) (path : list string) :
  nested_get d path =
  inr (match path_value d path with
       | Some v => v
       | None => VNone
       end).
Proof.
  exact (nested_get_path path d).
Qed.

(** C3: with the credential set and a payload whose [departures] is a
    non-empty list of records (mappings), the output is the header
    followed by one row for each of the first five records whose arrival
    code equals the target, or, when no record matches, for each of the
    first five records of the payload, and then the note; a row is made
    of the twelve cells of its record.  So there is a row whenever there
    is a record. *)
Theorem fetch_realtime_flights_rows (w : world) (tr tr' : list request)
    (origin destination key departure_date : string) (o d : value)
    (return_date : option string) (adults : Z)
    (kvs : list (string * value)) (flights : list value) :
  credential w key ->
  provider_answers w tr origin destination key o d tr' (ok (VDict kvs)) ->
  dict_get kvs "departures" = Some (VList flights) ->
  flights <> [] ->
  Forall (fun f => is_dict f = true) flights ->
  let matching := filter (fun f => py_eq (spec_arrival f) d) flights in
  let rows := firstn 5 (if Nat.eqb (length matching) 0 then flights
                        else matching) in
  (1 <= length rows <= 5)%nat /\
  (matching = [] -> rows = firstn 5 flights) /\
  fst (fetch_realtime_flights w origin destination departure_date
         return_date adults tr) =
  inr ("### Real-time flights from " ++ py_str o ++ " to " ++ py_str d ++
       " on " ++ departure_date ++ nl ++
       "| Airline | Flight | Departure | Departure Airport | Arrival | Arrival Airport | Duration | Status | Terminal | Gate | Aircraft | Baggage |" ++ nl ++
       "|---|---|---|---|---|---|---|---|---|---|---|---|" ++ nl ++
       String.concat EmptyString (map spec_row rows) ++
       (if (last (map spec_meaningful rows) 0 <? 3)%nat
        then nl ++ "> Note: The flight API response is missing many fields; try updating your RapidAPI key or check the API quota."
        else EmptyString)).
Proof.
  intros Hcred [Hres Hnet] Hdep Hne Hdicts matching rows.
  assert (Hmatch : matching = matching_arrival d flights).
  { unfold matching, matching_arrival. apply filter_ext.
    intros f. now rewrite arrival_code_spec. }
  assert (Hrows : rows = rendered_records d flights).
  { unfold rows, rendered_records. rewrite Hmatch.
    now destruct (matching_arrival d flights). }
  assert (Hrd : Forall (fun f => is_dict f = true) rows)
    by (rewrite Hrows; now apply rendered_records_dicts).
  repeat split.
  - unfold rows. destruct (Nat.eqb (length matching) 0) eqn:Hlen.
    + destruct flights; [congruence | cbn; lia].
    + destruct matching; [discriminate | cbn; lia].
  - apply length_firstn_le5.
  - intros Hm. unfold rows. now rewrite Hm.
  - rewrite (fetch_realtime_flights_eq _ _ _ _ _ _ _ _ _ _ _ Hcred Hres).
    rewrite Hnet. cbn [fst ok decode raise_for_status status_error
      json body rbind rret].
    rewrite (flights_of_payload_table _ _ _ _ _ Hdep Hne Hdicts), <- Hrows.
    unfold table_note.
    rewrite (map_dicts _ _ _ rows row_of_spec Hrd).
    rewrite (map_dicts _ _ _ rows meaningful_of_spec Hrd).
    unfold flight_table_header, advisory.
    rewrite !append_assoc. reflexivity.
Qed.

(** C4: with RAPIDAPI_KEY unset, [fetch_realtime_flights] performs no
    request (the trace is unchanged, the two airport-code resolutions
    included) and returns the mock text; for NYC, Paris, 2024-06-01, no
    return date and one adult that is the literal text of the scenario. *)
Theorem fetch_realtime_flights_no_credential (w : world) (tr : list request) :
  getenv w "RAPIDAPI_KEY" = None ->
  (forall origin destination departure_date return_date adults,
     fetch_realtime_flights w origin destination departure_date
       return_date adults tr =
     (inr (mock_search_flights origin destination departure_date
             return_date adults), tr)) /\
  fetch_realtime_flights w "NYC" "Paris" "2024-06-01" None 1 tr =
  (inr ("Flights from NYC to Paris on 2024-06-01 for 1 adults:" ++ nl ++
        "- Airline X: $350" ++ nl ++ "- Airline Y: $420" ++ nl ++
        "- Airline Z: $390"), tr).
Proof.
  intros Hkey.
  assert (H : forall origin destination departure_date return_date adults,
             fetch_realtime_flights w origin destination departure_date
               return_date adults tr =
             (inr (mock_search_flights origin destination departure_date
                     return_date adults), tr)).
  { intros. unfold fetch_realtime_flights, mbind.
    rewrite get_iata_code_eq, Hkey. cbv beta iota.
    rewrite get_iata_code_eq, Hkey. reflexivity. }
  split; [exact H | now rewrite H].
Qed.

(** C5, amended: for a payload with no [local_results] section whose
    [organic_results] section is absent or a list of mappings, each with a
    title that is absent or a string containing neither "hotel" nor "inn"
    (case-insensitively), [serpapi_search_hotels] returns the no-results
    message followed by the debug dump of the response cut to its first
    2000 characters. *)
Theorem serpapi_search_hotels_no_results (w : world)
    (destination check_in check_out : string) (adults : Z)
    (tr : list request) (kvs : list (string * value)) :
  network w tr (serpapi_request w destination) = ok (VDict kvs) ->
  dict_get kvs "local_results" = None ->
  organic_section_ok kvs = true ->
  forallb readable_entry (organic_entries kvs) = true ->
  forallb (fun item => negb (title_mentions_hotel item)) (organic_entries kvs)
    = true ->
  serpapi_search_hotels w destination check_in check_out adults tr =
  (inr ("No hotels found for your search." ++ nl ++ nl ++
        "<details><summary>Debug: Raw SerpAPI response</summary>" ++ nl ++
        "<pre>" ++ str_take 2000 (json_dumps (VDict kvs)) ++
        "...</pre></details>"),
   (tr ++ [serpapi_request w destination])%list).
Proof.
  intros Hnet Hlocal Hsec Hread Hnone.
  rewrite serpapi_search_hotels_eq, Hnet.
  cbn [ok decode raise_for_status status_error json body rbind rret].
  now rewrite (hotels_of_payload_nothing kvs Hlocal Hsec Hread Hnone).
Qed.

(** C6: neither [serpapi_search_hotels] nor [fetch_realtime_flights] raises:
    each returns a string in every world.  When the [try] block of
    [serpapi_search_hotels] raises [e], the result is the inline error
    string of [e]; when the [try] block of [fetch_realtime_flights] raises
    [e], the result is the mock flight text after the error annotation. *)
Theorem no_exception_crosses (w : world) (tr : list request)
    (destination check_in check_out origin departure_date : string)
    (return_date : option string) (adults : Z) :
  (exists s tr',
     serpapi_search_hotels w destination check_in check_out adults tr
     = (inr s, tr')) /\
  (exists s tr',
     fetch_realtime_flights w origin destination departure_date
       return_date adults tr = (inr s, tr')) /\
  (forall e tr',
     serpapi_attempt w destination tr = (inl e, tr') ->
     serpapi_search_hotels w destination check_in check_out adults tr =
     (inr ("[SerpAPI error: " ++ exn_str e ++ "]"), tr')) /\
  (forall key o d tr1 e tr',
     credential w key ->
     resolves w tr origin destination o d tr1 ->
     flights_attempt w key o d departure_date tr1 = (inl e, tr') ->
     fetch_realtime_flights w origin destination departure_date
       return_date adults tr =
     (inr ("[API error: " ++ exn_str e ++ "] Falling back to mock data." ++
           nl ++
           mock_search_flights origin destination departure_date
             return_date adults), tr')).
Proof.
  repeat split.
  - rewrite serpapi_search_hotels_eq. eauto.
  - destruct (get_iata_code_total w origin tr) as (o & tr1 & Ho).
    destruct (get_iata_code_total w destination tr1) as (d & tr2 & Hd).
    unfold fetch_realtime_flights, mbind. rewrite Ho, Hd.
    destruct (env_falsy (getenv w "RAPIDAPI_KEY")); [unfold mret; eauto |].
    unfold mtry.
    destruct (flights_attempt w _ o d departure_date tr2) as [[e | s] tr3];
      unfold mret; eauto.
  - intros e tr' H. unfold serpapi_search_hotels, mtry. now rewrite H.
  - intros key o d tr1 e tr' [Hkey Hne] (tr0 & Ho & Hd) H.
    unfold fetch_realtime_flights, mbind. rewrite Ho, Hd, Hkey.
    destruct key as [|a key]; [congruence |].
    cbn [env_falsy]. unfold mtry. now rewrite H.
Qed.

(** C7: [get_iata_code] returns the code of the first result of the lookup
    when the lookup succeeds and its first result has a (truthy) code, and
    the input unchanged in every other case; without a credential it makes
    no request, with one it makes exactly the one lookup. *)
Theorem get_iata_code_resolves (w : world) (city_name : string)
    (tr : list request) :
  get_iata_code w city_name tr =
  match getenv w "RAPIDAPI_KEY" with
  | Some ((String _ _) as key) =>
      let req := iata_request key city_name in
      (inr (match first_result_code (network w tr req) with
            | Some code => code
            | None => VStr city_name
            end),
       (tr ++ [req])%list)
  | _ => (inr (VStr city_name), tr)
  end.
Proof.
  exact (get_iata_code_eq w city_name tr).
Qed.

(** C8: for the payload with the single organic result "Grand Inn Paris" at
    "1 Rue X", [serpapi_search_hotels] returns the table with exactly one
    data row: that name, that address, and "N/A" for rating, reviews, price
    and link. *)
Theorem serpapi_search_hotels_grand_inn (w : world)
    (destination check_in check_out : string) (adults : Z)
    (tr : list request) :
  network w tr (serpapi_request w destination) = ok grand_inn_payload ->
  serpapi_search_hotels w destination check_in check_out adults tr =
  (inr ("### Top Hotels (Google Hotels via SerpAPI)" ++ nl ++
        "| Name | Address | Rating | Reviews | Price | Link |" ++ nl ++
        "|---|---|---|---|---|---|" ++ nl ++
        "| Grand Inn Paris | 1 Rue X | N/A | N/A | N/A | N/A |" ++ nl),
   (tr ++ [serpapi_request w destination])%list).
Proof.
  intros Hnet. rewrite serpapi_search_hotels_eq, Hnet. reflexivity.
Qed.

(** C9: two runs of [fetch_realtime_flights], in any two worlds and from any
    two traces, in which the airport codes resolve to the same codes and
    the provider returns the same payload, produce the same output. *)
Theorem fetch_realtime_flights_same_output
    (w1 w2 : world) (tr1 tr2 tr1' tr2' : list request)
    (origin destination key1 key2 departure_date : string) (o d data : value)
    (return_date : option string) (adults : Z) :
  credential w1 key1 ->
  credential w2 key2 ->
  provider_answers w1 tr1 origin destination key1 o d tr1' (ok data) ->
  provider_answers w2 tr2 origin destination key2 o d tr2' (ok data) ->
  fst (fetch_realtime_flights w1 origin destination departure_date
         return_date adults tr1) =
  fst (fetch_realtime_flights w2 origin destination departure_date
         return_date adults tr2).
Proof.
  intros Hc1 Hc2 [Hr1 Hn1] [Hr2 Hn2].
  rewrite (fetch_realtime_flights_eq _ _ _ _ _ _ _ _ _ _ _ Hc1 Hr1).
  rewrite (fetch_realtime_flights_eq _ _ _ _ _ _ _ _ _ _ _ Hc2 Hr2).
  now rewrite Hn1, Hn2.
Qed.

(** C10: with the credential set and a successful response whose payload
    has no [departures] or an empty [departures] list,
    [fetch_realtime_flights] returns exactly "No real-time flights found.". *)
Theorem fetch_realtime_flights_none_found (w : world) (tr tr' : list request)
    (origin destination key departure_date : string) (o d : value)
    (return_date : option string) (adults : Z) (kvs : list (string * value)) :
  credential w key ->
  provider_answers w tr origin destination key o d tr' (ok (VDict kvs)) ->
  dict_get kvs "departures" = None \/
  dict_get kvs "departures" = Some (VList []) ->
  fetch_realtime_flights w origin destination departure_date
    return_date adults tr =
  (inr "No real-time flights found.", (tr' ++ [flights_request key o])%list).
Proof.
  intros Hcred [Hres Hnet] Hdep.
  rewrite (fetch_realtime_flights_eq _ _ _ _ _ _ _ _ _ _ _ Hcred Hres), Hnet.
  cbn [ok decode raise_for_status status_error json body rbind rret].
  unfold flights_of_payload, py_get.
  destruct Hdep as [-> | ->]; reflexivity.
Qed.

(** * More of the aggregator *)

(** ** Helpers *)

Lemma fetch_realtime_flights_total (w : world) (tr : list request)
    (origin destination departure_date : string)
    (return_date : option string) (adults : Z) :
  exists s tr',
    fetch_realtime_flights w origin destination departure_date
      return_date adults tr = (inr s, tr').
Proof.
  destruct (get_iata_code_total w origin tr) as (o & tr1 & Ho).
  destruct (get_iata_code_total w destination tr1) as (d & tr2 & Hd).
  unfold fetch_realtime_flights, mbind. rewrite Ho, Hd.
  destruct (env_falsy (getenv w "RAPIDAPI_KEY")); [unfold mret; eauto |].
  unfold mtry.
  destruct (flights_attempt w _ o d departure_date tr2) as [[e | s] tr3];
    unfold mret; eauto.
Qed.

Lemma resolves_with_credential (w : world) (key origin destination : string)
    (tr : list request) :
  credential w key ->
  resolves w tr origin destination
    (match first_result_code (network w tr (iata_request key origin)) with
     | Some code => code
     | None => VStr origin
     end)
    (match first_result_code
             (network w (tr ++ [iata_request key origin])%list
                (iata_request key destination)) with
     | Some code => code
     | None => VStr destination
     end)
    (tr ++ [iata_request key origin; iata_request key destination])%list.
Proof.
  intros [Hkey Hne]. destruct key as [|a key]; [congruence |].
  eexists. split.
  - rewrite get_iata_code_eq, Hkey. cbv zeta. reflexivity.
  - rewrite get_iata_code_eq, Hkey. cbv zeta.
    rewrite <- app_assoc. reflexivity.
Qed.

Lemma path_or_none_app (p q : list string) :
  forall d, path_or_none d (p ++ q) = path_or_none (path_or_none d p) q.
Proof.
  induction p as [|k p IH]; intros d; [reflexivity |].
  unfold path_or_none at 1 3. cbn [app path_value].
  destruct d as [| | | | | | kvs]; try (now destruct q).
  destruct (dict_get kvs k) as [v |]; [| now destruct q].
  exact (IH v).
Qed.

Lemma truthy_or_val (x y : value) :
  truthy y = true -> truthy (or_val x y) = true.
Proof.
  unfold or_val. now destruct (truthy x) eqn:Hx.
Qed.

Lemma flights_of_payload_render (o d : value) (departure_date : string)
    (kvs : list (string * value)) (flights : list value) :
  dict_get kvs "departures" = Some (VList flights) ->
  flights <> [] ->
  flights_of_payload o d departure_date (VDict kvs) =
  (out <- render_flights (rendered_records d flights)
            (flight_table_header o d departure_date) 0 ;;
   rret (if (snd out <? 3)%nat then fst out ++ nl ++ advisory
         else fst out))%res.
Proof.
  intros Hdep Hne.
  unfold flights_of_payload, py_get. rewrite Hdep.
  destruct flights as [|f0 fs0]; [congruence |].
  cbn [truthy negb py_iter rbind rret].
  rewrite filter_arrival_matching. cbn [rbind].
  unfold rendered_records.
  destruct (matching_arrival d (f0 :: fs0)) as [|m ms];
    cbn [truthy negb py_slice rbind rret py_iter];
    rewrite ?firstn_idem;
    destruct (render_flights _ _ 0) as [e | [result meaningful]];
    reflexivity.
Qed.

Lemma render_flights_fails (pre post : list value) (f : value) :
  Forall (fun f => is_dict f = true) pre ->
  is_dict f = false ->
  forall result m,
    render_flights (pre ++ f :: post) result m =
    inl (AttributeError (type_name f) "get").
Proof.
  intros Hpre Hf. induction Hpre as [|g pre Hg _ IH]; intros result m.
  - destruct f; try discriminate; reflexivity.
  - destruct g; try discriminate.
    destruct (resolve_cells_dict kvs) as [c Hc].
    cbn [app render_flights]. rewrite Hc. cbn [rbind]. apply IH.
Qed.

(** ** [nested_get], rows and requests of the flight search *)

(** X1: looking up a path in two steps is looking it up at once:
    [nested_get(d, *p, *q)] is [nested_get(nested_get(d, *p), *q)]. *)
Theorem nested_get_app (d : value) (p q : list string) :
  nested_get d (p ++ q) = (v <- nested_get d p ;; nested_get v q)%res.
Proof.
  rewrite !nested_get_path. cbn [rbind].
  rewrite nested_get_path, path_or_none_app. reflexivity.
Qed.

(** X2: the row of a record that is a mapping is complete: each of its
    twelve cells is the value at the first of its candidate paths that
    is truthy, and "N/A" when none is; so a cell is always truthy, never
    [None] and never an empty string. *)
Theorem resolve_cells_complete (kvs : list (string * value))
    (c : flight_cells) :
  resolve_cells (VDict kvs) = inr c ->
  all_cells c =
  map (fun a =>
         match find (fun p => truthy (path_or_none (VDict kvs) p)) (snd a) with
         | Some p => path_or_none (VDict kvs) p
         | None => VStr "N/A"
         end) attribute_paths /\
  Forall (fun v => truthy v = true) (all_cells c).
Proof.
  intros H. destruct (resolve_cells_spec kvs) as (c' & Hc & Hcells).
  rewrite H in Hc. injection Hc as <-.
  split; [exact Hcells |].
  rewrite Hcells. unfold spec_cells. apply Forall_forall.
  intros v Hv. apply in_map_iff in Hv as (a & <- & _).
  apply first_of_truthy.
Qed.

(** X3: a RAPIDAPI_KEY that is set to the empty string counts as unset:
    no request is made and the mock text is returned. *)
Theorem fetch_realtime_flights_empty_credential (w : world)
    (tr : list request) (origin destination departure_date : string)
    (return_date : option string) (adults : Z) :
  getenv w "RAPIDAPI_KEY" = Some EmptyString ->
  fetch_realtime_flights w origin destination departure_date
    return_date adults tr =
  (inr (mock_search_flights origin destination departure_date
          return_date adults), tr).
Proof.
  intros Hkey. unfold fetch_realtime_flights, mbind.
  rewrite get_iata_code_eq, Hkey. cbv beta iota.
  rewrite get_iata_code_eq, Hkey. reflexivity.
Qed.

(** X4: with the credential set, a call makes exactly three requests,
    whatever the provider answers: the lookup of the origin, the lookup
    of the destination, and the departures of the code the first lookup
    resolved the origin to (the origin itself when it resolved to none);
    the result is a string. *)
Theorem fetch_realtime_flights_three_requests (w : world) (tr : list request)
    (origin destination key departure_date : string)
    (return_date : option string) (adults : Z) :
  credential w key ->
  exists s,
    fetch_realtime_flights w origin destination departure_date
      return_date adults tr =
    (inr s,
     (tr ++ [iata_request key origin; iata_request key destination;
             flights_request key
               (match first_result_code
                        (network w tr (iata_request key origin)) with
                | Some code => code
                | None => VStr origin
                end)])%list).
Proof.
  intros Hcred.
  pose proof (resolves_with_credential w key origin destination tr Hcred)
    as Hres.
  eexists.
  rewrite (fetch_realtime_flights_eq _ _ _ _ _ _ _ _ _ _ _ Hcred Hres).
  rewrite <- app_assoc. reflexivity.
Qed.

(** X5: one rendered record that is not a mapping discards the whole
    table: when, among the records that get a row, the first that is not
    a mapping is [f], the result is the mock text annotated with the
    [AttributeError] of [f.get]. *)
Theorem fetch_realtime_flights_bad_record (w : world) (tr tr' : list request)
    (origin destination key departure_date : string) (o d : value)
    (return_date : option string) (adults : Z)
    (kvs : list (string * value)) (flights pre post : list value) (f : value) :
  credential w key ->
  provider_answers w tr origin destination key o d tr' (ok (VDict kvs)) ->
  dict_get kvs "departures" = Some (VList flights) ->
  rendered_records d flights = (pre ++ f :: post)%list ->
  Forall (fun g => is_dict g = true) pre ->
  is_dict f = false ->
  fst (fetch_realtime_flights w origin destination departure_date
         return_date adults tr) =
  inr ("[API error: " ++ exn_str (AttributeError (type_name f) "get") ++
       "] Falling back to mock data." ++ nl ++
       mock_search_flights origin destination departure_date
         return_date adults).
Proof.
  intros Hcred [Hres Hnet] Hdep Hrows Hpre Hf.
  assert (Hne : flights <> []).
  { intros ->. unfold rendered_records in Hrows. simpl in Hrows.
    now destruct pre. }
  rewrite (fetch_realtime_flights_eq _ _ _ _ _ _ _ _ _ _ _ Hcred Hres), Hnet.
  cbn [fst ok decode raise_for_status status_error json body rbind rret].
  rewrite (flights_of_payload_render _ _ _ _ _ Hdep Hne), Hrows.
  rewrite (render_flights_fails _ _ _ Hpre Hf). reflexivity.
Qed.

(** X6: only the records that get a row need to be mappings: when they
    are, the result is the table of these records, whatever the other
    records of the payload are. *)
Theorem fetch_realtime_flights_rendered_only (w : world)
    (tr tr' : list request)
    (origin destination key departure_date : string) (o d : value)
    (return_date : option string) (adults : Z)
    (kvs : list (string * value)) (flights : list value) :
  credential w key ->
  provider_answers w tr origin destination key o d tr' (ok (VDict kvs)) ->
  dict_get kvs "departures" = Some (VList flights) ->
  flights <> [] ->
  Forall (fun f => is_dict f = true) (rendered_records d flights) ->
  fst (fetch_realtime_flights w origin destination departure_date
         return_date adults tr) =
  inr (flight_table_header o d departure_date ++
       String.concat EmptyString (map row_of (rendered_records d flights)) ++
       table_note (rendered_records d flights)).
Proof.
  intros Hcred [Hres Hnet] Hdep Hne Hrows.
  rewrite (fetch_realtime_flights_eq _ _ _ _ _ _ _ _ _ _ _ Hcred Hres), Hnet.
  cbn [fst ok decode raise_for_status status_error json body rbind rret].
  rewrite (flights_of_payload_render _ _ _ _ _ Hdep Hne).
  rewrite (render_flights_dicts _ Hrows). cbn [rbind rret fst snd].
  unfold table_note.
  destruct (last _ 0 <? 3)%nat.
  - now rewrite append_assoc.
  - now rewrite append_nil_r.
Qed.

(** ** The hotel table *)

Lemma hotel_row_dict (kvs : list (string * value)) :
  exists row, hotel_row (VDict kvs) = inr row.
Proof.
  unfold hotel_row, py_get, rret. rewrite py_or_inr.
  unfold rbind. eexists. reflexivity.
Qed.

Lemma render_hotels_dicts (hs : list value) :
  Forall (fun h => is_dict h = true) hs ->
  forall result,
    render_hotels hs result =
    inr (result ++ String.concat EmptyString (map hotel_row_of hs)).
Proof.
  induction 1 as [|h hs Hh _ IH]; intros result.
  - cbn [render_hotels map String.concat]. now rewrite append_nil_r.
  - destruct h; try discriminate.
    destruct (hotel_row_dict kvs) as [row Hrow].
    assert (Hof : hotel_row_of (VDict kvs) = row)
      by (unfold hotel_row_of; now rewrite Hrow).
    cbn [render_hotels map]. rewrite concat_cons, Hof, Hrow.
    cbn [rbind]. rewrite IH, append_assoc. reflexivity.
Qed.

Lemma scan_organic_kept (items : list value) :
  forallb readable_entry items = true ->
  forall acc,
    scan_organic items (VList acc) =
    inr (VList (acc ++ map entry_of (filter title_mentions_hotel items))%list).
Proof.
  induction items as [|item items IH]; intros Hr acc.
  - cbn [scan_organic filter map]. now rewrite app_nil_r.
  - cbn [forallb] in Hr. apply andb_prop in Hr as [Hr Hrs].
    destruct item as [| | | | | | fields]; try discriminate.
    cbn [scan_organic py_get rret rbind filter].
    unfold readable_entry in Hr. unfold title_mentions_hotel at 1.
    destruct (dict_get fields "title") as [[| | | | t | |] |] eqn:Ht;
      try discriminate.
    + unfold hotel_like, py_lower, rret. cbn [rbind].
      destruct (contains "hotel" (lower t)) eqn:Hh; cbn [orb rbind].
      * cbn [py_append map]. unfold entry_of.
        destruct (hotel_entry (VDict fields)) as [e | entry] eqn:He;
          [discriminate He |].
        cbn [rbind rret]. rewrite (IH Hrs), <- app_assoc. reflexivity.
      * destruct (contains "inn" (lower t)) eqn:Hi.
        -- cbn [py_append map]. unfold entry_of.
           destruct (hotel_entry (VDict fields)) as [e | entry] eqn:He;
             [discriminate He |].
           cbn [rbind rret]. rewrite (IH Hrs), <- app_assoc. reflexivity.
        -- apply (IH Hrs).
    + cbn. apply (IH Hrs).
Qed.

Lemma entries_are_dicts (items : list value) :
  forallb readable_entry items = true ->
  Forall (fun h => is_dict h = true) (map entry_of items).
Proof.
  induction items as [|item items IH]; cbn [forallb map]; intros Hr.
  - constructor.
  - apply andb_prop in Hr as [Hr Hrs].
    destruct item; try discriminate. constructor; [reflexivity | auto].
Qed.

Lemma forallb_filter (A : Type) (f g : A -> bool) (l : list A) :
  forallb f l = true -> forallb f (filter g l) = true.
Proof.
  induction l as [|x l IH]; cbn [forallb filter]; [reflexivity |].
  intros H. apply andb_prop in H as [Hx Hl].
  destruct (g x); cbn [forallb]; [rewrite Hx |]; auto.
Qed.

Lemma local_hotels_list (kvs : list (string * value)) :
  local_hotels (VDict kvs) =
  inr (match local_list kvs with
       | Some hotels => hotels
       | None => VList []
       end).
Proof.
  unfold local_hotels, local_list, py_in, py_getitem.
  destruct (dict_get kvs "local_results") as [[| | | | | l | lr] |];
    try reflexivity.
  cbn [rret rbind is_list is_dict].
  now destruct (dict_get lr "places").
Qed.

(** X7: when the [local_results] section gives no hotel (it is absent,
    gives no list, or gives the empty list), the table is made of the
    organic results whose title contains "hotel" or "inn" in any case,
    in their order and five at most, each shown through the entry built
    for it; the other organic results are left out. *)
Theorem serpapi_search_hotels_organic (w : world)
    (destination check_in check_out : string) (adults : Z)
    (tr : list request) (kvs : list (string * value)) (items : list value) :
  network w tr (serpapi_request w destination) = ok (VDict kvs) ->
  local_list kvs = None \/ local_list kvs = Some (VList []) ->
  dict_get kvs "organic_results" = Some (VList items) ->
  forallb readable_entry items = true ->
  filter title_mentions_hotel items <> [] ->
  fst (serpapi_search_hotels w destination check_in check_out adults tr) =
  inr (hotel_table_header ++
       String.concat EmptyString
         (map (fun item => hotel_row_of (entry_of item))
              (firstn 5 (filter title_mentions_hotel items)))).
Proof.
  intros Hnet Hlocal Horg Hread Hkept.
  rewrite serpapi_search_hotels_eq, Hnet.
  cbn [fst ok decode raise_for_status status_error json body rbind rret].
  unfold hotels_of_payload. rewrite local_hotels_list.
  assert (Hl : match local_list kvs with
               | Some hotels => hotels
               | None => VList []
               end = VList []) by (destruct Hlocal as [-> | ->]; reflexivity).
  rewrite Hl. cbn [rbind].
  unfold organic_hotels, py_in, py_getitem.
  cbn [rret rbind truthy negb]. rewrite Horg.
  cbn [rret rbind py_iter]. rewrite (scan_organic_kept items Hread).
  cbn [rbind app].
  set (kept := filter title_mentions_hotel items) in *.
  assert (Hne : map entry_of kept <> []) by (destruct kept; [congruence | discriminate]).
  assert (Hdicts : Forall (fun h => is_dict h = true)
                     (firstn 5 (map entry_of kept))).
  { apply Forall_firstn, entries_are_dicts.
    unfold kept. now apply forallb_filter. }
  destruct (map entry_of kept) as [|h hs] eqn:Hmap; [congruence |].
  cbn [truthy negb py_slice py_iter rbind rret].
  rewrite (render_hotels_dicts _ Hdicts), <- Hmap, firstn_map, map_map.
  reflexivity.
Qed.

(** X8: a [local_results] section that gives a non-empty list of hotels,
    directly or under [places], decides the table alone: its first five
    entries are shown and [organic_results] is not looked at. *)
Theorem serpapi_search_hotels_local (w : world)
    (destination check_in check_out : string) (adults : Z)
    (tr : list request) (kvs : list (string * value)) (hs : list value) :
  network w tr (serpapi_request w destination) = ok (VDict kvs) ->
  local_list kvs = Some (VList hs) ->
  hs <> [] ->
  Forall (fun h => is_dict h = true) (firstn 5 hs) ->
  fst (serpapi_search_hotels w destination check_in check_out adults tr) =
  inr (hotel_table_header ++
       String.concat EmptyString (map hotel_row_of (firstn 5 hs))).
Proof.
  intros Hnet Hlocal Hne Hdicts.
  rewrite serpapi_search_hotels_eq, Hnet.
  cbn [fst ok decode raise_for_status status_error json body rbind rret].
  assert (Hl : local_hotels (VDict kvs) = inr (VList hs))
    by (now rewrite local_hotels_list, Hlocal).
  unfold hotels_of_payload. rewrite Hl. cbn [rbind].
  unfold organic_hotels.
  destruct hs as [|h hs']; [congruence |].
  cbn [truthy negb py_slice py_iter rbind rret].
  now rewrite (render_hotels_dicts _ Hdicts).
Qed.

(** ** Payloads of the wrong kind *)

(** X21: a departures response that decodes to anything but a mapping (an
    array, a string, a number, [null]) gives the mock text annotated with
    the [AttributeError] of [data.get]. *)
Theorem fetch_realtime_flights_not_a_mapping (w : world)
    (tr tr' : list request)
    (origin destination key departure_date : string) (o d data : value)
    (return_date : option string) (adults : Z) :
  credential w key ->
  provider_answers w tr origin destination key o d tr' (ok data) ->
  is_dict data = false ->
  fst (fetch_realtime_flights w origin destination departure_date
         return_date adults tr) =
  inr ("[API error: " ++ exn_str (AttributeError (type_name data) "get") ++
       "] Falling back to mock data." ++ nl ++
       mock_search_flights origin destination departure_date
         return_date adults).
Proof.
  intros Hcred [Hres Hnet] Hdata.
  rewrite (fetch_realtime_flights_eq _ _ _ _ _ _ _ _ _ _ _ Hcred Hres), Hnet.
  destruct data; try discriminate; reflexivity.
Qed.

(** X22: a hotel response that decodes to [null], a boolean or a number
    gives the inline error string of the failed [in] test. *)
Theorem serpapi_search_hotels_not_a_container (w : world)
    (destination check_in check_out : string) (adults : Z)
    (tr : list request) (data : value) :
  network w tr (serpapi_request w destination) = ok data ->
  is_none data || is_number data = true ->
  fst (serpapi_search_hotels w destination check_in check_out adults tr) =
  inr ("[SerpAPI error: " ++ exn_str (NotContainer (type_name data)) ++ "]").
Proof.
  intros Hnet Hdata. rewrite serpapi_search_hotels_eq, Hnet.
  destruct data; try discriminate; reflexivity.
Qed.

(** * The planner *)

(** ** [TravelItinerary] *)

Lemma normalize_day_total (d : value) : normalize_day d = inr (day_of d).
Proof.
  unfold day_of. destruct d; reflexivity.
Qed.

Lemma normalize_days_map (ds : list value) :
  forall acc, normalize_days ds acc = inr (acc ++ map day_of ds)%list.
Proof.
  induction ds as [|d ds IH]; intros acc; cbn [normalize_days map].
  - now rewrite app_nil_r.
  - rewrite normalize_day_total. cbn [rbind].
    rewrite IH, <- app_assoc. reflexivity.
Qed.

Lemma to_dict_day_of (d : value) : to_dict (day_of d) = day_json d.
Proof.
  destruct d; reflexivity.
Qed.

Lemma day_of_to_dict (d : value) : day_of (to_dict (day_of d)) = day_of d.
Proof.
  destruct d; reflexivity.
Qed.

Lemma TravelItinerary_init_days (destination duration total_budget days
    additional_tips hotels flights : value) (it : TravelItinerary) :
  TravelItinerary_init destination duration total_budget days
    additional_tips hotels flights = inr it ->
  exists ds,
    it = mkItinerary destination duration total_budget (map day_of ds)
           additional_tips hotels flights.
Proof.
  unfold TravelItinerary_init.
  destruct (py_iter (if truthy days then days else VList [])) as [e | ds];
    [discriminate |].
  cbn [rbind]. rewrite normalize_days_map. cbn [rbind rret app].
  intros H. injection H as <-. now exists ds.
Qed.

(** X9: for a list of days, [TravelItinerary(...).dict()] has one day per
    input day, in order: a day that is a mapping becomes the mapping of
    its five fields [day], [activities], [meals], [accommodation] and
    [budget_estimate], with [None], [[]], [[]], [""] and [""] for the
    missing ones and every other key dropped; any other day is kept. *)
Theorem TravelItinerary_dict_days (destination duration total_budget
    additional_tips hotels flights : value) (ds : list value) :
  exists it,
    TravelItinerary_init destination duration total_budget (VList ds)
      additional_tips hotels flights = inr it /\
    TravelItinerary_dict it =
    VDict [("destination", destination); ("duration", duration);
           ("total_budget", total_budget);
           ("days", VList (map day_json ds));
           ("additional_tips", additional_tips);
           ("hotels", hotels); ("flights", flights)].
Proof.
  eexists. split.
  - unfold TravelItinerary_init.
    replace (if truthy (VList ds) then VList ds else VList []) with (VList ds)
      by (now destruct ds).
    cbn [py_iter rbind rret]. rewrite normalize_days_map. reflexivity.
  - unfold TravelItinerary_dict. cbn [it_destination it_duration
      it_total_budget it_days it_additional_tips it_hotels it_flights app].
    rewrite map_map, (map_ext _ _ to_dict_day_of). reflexivity.
Qed.

(** X10: [TravelItinerary(...)] raises exactly when [days] is a truthy
    number ([True], a non-zero [int] or [float]), and then with the
    [TypeError] of the [for] over it; [None], an empty value, a list, a
    mapping or a string never make it raise. *)
Theorem TravelItinerary_init_raises (destination duration total_budget days
    additional_tips hotels flights : value) (e : exn) :
  TravelItinerary_init destination duration total_budget days
    additional_tips hotels flights = inl e <->
  is_number days = true /\ truthy days = true /\
  e = NotIterable (type_name days).
Proof.
  unfold TravelItinerary_init.
  destruct (truthy days) eqn:Ht.
  - destruct days as [| b | z | f | s | l | kvs]; cbn [py_iter rbind rret];
      rewrite ?normalize_days_map; cbn [rbind rret is_number type_name];
      try discriminate Ht;
      (split; [intros H | intros (H1 & H2 & H3)]);
      try discriminate; try (injection H as <-; auto); try (subst; reflexivity).
  - cbn [py_iter rbind rret normalize_days].
    split; [discriminate | intros (_ & H & _); discriminate].
Qed.

(** X11: the days of [dict()] are stable: building an itinerary again
    from the days that [dict()] shows gives the same itinerary, so a
    downloaded itinerary reads back to itself. *)
Theorem TravelItinerary_dict_stable (destination duration total_budget days
    additional_tips hotels flights : value) (it : TravelItinerary) :
  TravelItinerary_init destination duration total_budget days
    additional_tips hotels flights = inr it ->
  TravelItinerary_init destination duration total_budget
    (VList (map to_dict (it_days it))) additional_tips hotels flights = inr it.
Proof.
  intros H. destruct (TravelItinerary_init_days _ _ _ _ _ _ _ _ H) as [ds ->].
  cbn [it_days]. unfold TravelItinerary_init.
  replace (if truthy (VList (map to_dict (map day_of ds)))
           then VList (map to_dict (map day_of ds)) else VList [])
    with (VList (map to_dict (map day_of ds)))
    by (now destruct ds).
  cbn [py_iter rbind rret]. rewrite normalize_days_map. cbn [rbind rret app].
  rewrite !map_map, (map_ext _ _ day_of_to_dict). reflexivity.
Qed.

(** ** The parsing of the model's output *)

Lemma upto_last_brace_none (s : string) :
  has_char close_brace s = false -> upto_last_brace s = None.
Proof.
  induction s as [|c s IH]; [reflexivity |].
  cbn [has_char upto_last_brace]. intros H.
  apply orb_false_iff in H as [Hc Hs]. now rewrite (IH Hs), Hc.
Qed.

Lemma upto_last_brace_app (s post : string) :
  has_char close_brace post = false ->
  upto_last_brace (s ++ String close_brace post) =
  Some (s ++ String close_brace EmptyString).
Proof.
  intros Hpost. induction s as [|c s IH]; cbn [append upto_last_brace].
  - now rewrite (upto_last_brace_none post Hpost).
  - now rewrite IH.
Qed.

Lemma from_first_brace_app (pre rest : string) :
  has_char open_brace pre = false ->
  from_first_brace (pre ++ String open_brace rest) =
  Some (String open_brace rest).
Proof.
  induction pre as [|c pre IH]; cbn [append from_first_brace has_char].
  - reflexivity.
  - intros H. apply orb_false_iff in H as [Hc Hpre]. now rewrite Hc, IH.
Qed.

Lemma from_first_brace_suffix (c : ascii) (s t : string) :
  from_first_brace s = Some t ->
  has_char c s = false -> has_char c t = false.
Proof.
  induction s as [|x s IH]; cbn [from_first_brace]; [discriminate |].
  destruct (Ascii.eqb x open_brace).
  - now intros [= <-].
  - intros Ht H. cbn [has_char] in H.
    apply orb_false_iff in H as [_ Hs]. auto.
Qed.

(** X12: an object wrapped in prose is found: when the output is not
    JSON as a whole and reads [pre{mid}post] with no opening brace in
    [pre] and no closing brace in [post], the data is what [json.loads]
    makes of [{mid}], and [None] when that raises. *)
Theorem parse_output_wrapped (pre mid post : string) :
  json_loads (pre ++ "{" ++ mid ++ "}" ++ post) = None ->
  has_char open_brace pre = false ->
  has_char close_brace post = false ->
  parse_output (pre ++ "{" ++ mid ++ "}" ++ post) =
  match json_loads ("{" ++ mid ++ "}") with
  | Some data => data
  | None => VNone
  end.
Proof.
  intros Hjson Hpre Hpost. unfold parse_output, brace_span. rewrite Hjson.
  change (pre ++ "{" ++ mid ++ "}" ++ post)
    with (pre ++ String open_brace (mid ++ String close_brace post)).
  rewrite (from_first_brace_app _ _ Hpre).
  change (String open_brace (mid ++ String close_brace post))
    with (String open_brace mid ++ String close_brace post).
  rewrite (upto_last_brace_app _ _ Hpost). reflexivity.
Qed.

(** X13: an output that is not JSON and lacks an opening or a closing
    brace gives no data. *)
Theorem parse_output_no_braces (output : string) :
  json_loads output = None ->
  has_char open_brace output = false \/ has_char close_brace output = false ->
  parse_output output = VNone.
Proof.
  intros Hjson Hno. unfold parse_output, brace_span. rewrite Hjson.
  destruct (from_first_brace output) as [t |] eqn:Ht; [| reflexivity].
  destruct Hno as [Hopen | Hclose].
  - exfalso. clear Hjson. revert t Ht Hopen.
    induction output as [|c s IH]; cbn [from_first_brace has_char];
      [discriminate |].
    intros t Ht H. apply orb_false_iff in H as [Hc Hs].
    rewrite Hc in Ht. eauto.
  - now rewrite (upto_last_brace_none t
                   (from_first_brace_suffix _ _ _ Ht Hclose)).
Qed.

(** ** [generate_itinerary] *)

Lemma search_both_run (w : world) (ds : dates) (destination : string)
    (tr : list request) :
  exists h f,
    search_both w ds destination tr =
    (inr (VStr h, VStr f),
     snd (fetch_realtime_flights w "YourCity" destination (flight_date ds)
            None 1 (tr ++ [serpapi_request w destination])%list)) /\
    fst (serpapi_search_hotels w destination (check_in_date ds)
           (check_out_date ds) 2 tr) = inr h /\
    fst (fetch_realtime_flights w "YourCity" destination (flight_date ds)
           None 1 (tr ++ [serpapi_request w destination])%list) = inr f.
Proof.
  destruct (fetch_realtime_flights_total w
              (tr ++ [serpapi_request w destination])%list
              "YourCity" destination (flight_date ds) None 1)
    as (f & tr' & Hf).
  eexists. exists f. rewrite Hf.
  unfold search_both, mbind, mtry. unfold mbind.
  rewrite serpapi_search_hotels_eq. unfold mret. rewrite Hf.
  repeat split; reflexivity.
Qed.

(** X14: when the model gave no usable data (no model, a call that
    raised, an output that did not parse, or falsy data), the result is
    the placeholder itinerary: the destination and duration asked for,
    the budget "$150-450", three days numbered 1 to 3 with the same
    activities, meals, accommodation and budget, one tip, and the texts
    of the hotel search and of the flight search from "YourCity". *)
Theorem generate_itinerary_placeholder (p : TravelPlanner) (w : world)
    (ds : dates) (destination duration budget interests : string)
    (tr : list request) :
  truthy (itinerary_data p destination duration budget interests) = false ->
  exists h f,
    fst (serpapi_search_hotels w destination (check_in_date ds)
           (check_out_date ds) 2 tr) = inr h /\
    fst (fetch_realtime_flights w "YourCity" destination (flight_date ds)
           None 1 (tr ++ [serpapi_request w destination])%list) = inr f /\
    fst (generate_itinerary p w ds destination duration budget interests tr) =
    inr (mkItinerary (VStr destination) (VStr duration) (VStr "$150-450")
           (map (fun i =>
                   DayPlan (VInt i)
                     (VList [VStr ("Sightseeing in " ++ destination);
                             VStr "Local meal"])
                     (VList [VStr "Breakfast"; VStr "Lunch"; VStr "Dinner"])
                     (VStr "Central hotel") (VStr "$50-$150"))
                [1; 2; 3]%Z)
           (VList [VStr "Carry a reusable water bottle."])
           (VStr h) (VStr f)).
Proof.
  intros Hdata.
  destruct (search_both_run w ds destination tr) as (h & f & Hs & Hh & Hf).
  exists h, f. repeat split; [exact Hh | exact Hf |].
  unfold generate_itinerary. rewrite Hdata. cbn [negb].
  unfold mbind. rewrite Hs. reflexivity.
Qed.

(** X16: data that is truthy but not a mapping (a JSON array, string or
    number from the model) makes [generate_itinerary] raise the
    [AttributeError] of [data.get]: this exception is not caught. *)
Theorem generate_itinerary_not_a_mapping (p : TravelPlanner) (w : world)
    (ds : dates) (destination duration budget interests : string)
    (tr : list request) :
  truthy (itinerary_data p destination duration budget interests) = true ->
  is_dict (itinerary_data p destination duration budget interests) = false ->
  fst (generate_itinerary p w ds destination duration budget interests tr) =
  inl (AttributeError
         (type_name (itinerary_data p destination duration budget interests))
         "get").
Proof.
  intros Ht Hd.
  destruct (search_both_run w ds destination tr) as (h & f & Hs & _ & _).
  unfold generate_itinerary. rewrite Ht. cbn [negb].
  unfold mbind. rewrite Hs. unfold mlift. cbn [fst].
  destruct (itinerary_data p destination duration budget interests);
    try discriminate; reflexivity.
Qed.

(** X17: data that is a non-empty mapping whose [days] is absent or a
    list gives the itinerary of the data: each of [destination],
    [duration], [total_budget] and [additional_tips] from the data, or,
    when missing, the destination and duration asked for, "$150-450" and
    no tips; one day per entry of [days]; and the texts of the two
    searches. *)
Theorem generate_itinerary_from_data (p : TravelPlanner) (w : world)
    (ds : dates) (destination duration budget interests : string)
    (tr : list request) (kvs : list (string * value)) (days : list value) :
  itinerary_data p destination duration budget interests = VDict kvs ->
  kvs <> [] ->
  field kvs "days" (VList []) = VList days ->
  exists h f,
    fst (serpapi_search_hotels w destination (check_in_date ds)
           (check_out_date ds) 2 tr) = inr h /\
    fst (fetch_realtime_flights w "YourCity" destination (flight_date ds)
           None 1 (tr ++ [serpapi_request w destination])%list) = inr f /\
    fst (generate_itinerary p w ds destination duration budget interests tr) =
    inr (mkItinerary
           (field kvs "destination" (VStr destination))
           (field kvs "duration" (VStr duration))
           (field kvs "total_budget" (VStr "$150-450"))
           (map day_of days)
           (field kvs "additional_tips" (VList []))
           (VStr h) (VStr f)).
Proof.
  intros Hdata Hne Hdays.
  destruct (search_both_run w ds destination tr) as (h & f & Hs & Hh & Hf).
  exists h, f. repeat split; [exact Hh | exact Hf |].
  assert (Ht : truthy (VDict kvs) = true) by (destruct kvs; [congruence | reflexivity]).
  unfold generate_itinerary. rewrite Hdata, Ht.
  cbn [negb]. unfold mbind. rewrite Hs. unfold mlift. cbn [fst snd].
  unfold py_get, rret. cbn [rbind].
  fold (field kvs "days" (VList [])). rewrite Hdays.
  unfold TravelItinerary_init.
  replace (if truthy (VList days) then VList days else VList [])
    with (VList days) by (now destruct days).
  cbn [py_iter rbind rret]. rewrite normalize_days_map. reflexivity.
Qed.

(** ** Without a model *)

(** X18: the planner never holds a chain without a model, nor without
    LangChain. *)
Theorem TravelPlanner_init_chain (w : world) (mi : mistral_lib)
    (lc : langchain_lib) :
  chain (TravelPlanner_init w mi lc) <> None ->
  LANGCHAIN_PRESENT lc = true /\ llm (TravelPlanner_init w mi lc) <> None.
Proof.
  unfold TravelPlanner_init. cbn [chain llm].
  destruct (LANGCHAIN_PRESENT lc); [| congruence].
  destruct (get_llm w mi lc) as [text | f]; [congruence |].
  intros _. split; [reflexivity | discriminate].
Qed.

(** X19: without MISTRAL_API_KEY (unset or empty) the planner that
    [__init__] builds has no model and no chain, whatever packages are
    installed; its [chat] answers the fixed sentence, the realtime
    insights are the fixed packing tips, and [generate_itinerary] has no
    data. *)
Theorem no_mistral_key (w : world) (mi : mistral_lib) (lc : langchain_lib) :
  env_falsy (getenv w "MISTRAL_API_KEY") = true ->
  TravelPlanner_init w mi lc = mkPlanner None None /\
  (forall prompt, chat (TravelPlanner_init w mi lc) prompt =
     "I can't access the AI right now, but I can help with basic travel info.") /\
  (forall destination duration budget interests,
     get_travel_insights_realtime w mi (TravelPlanner_init w mi lc)
       destination duration budget interests =
     "Pack light, check local weather, and keep digital copies of your documents.") /\
  (forall destination duration budget interests,
     itinerary_data (TravelPlanner_init w mi lc)
       destination duration budget interests = VNone).
Proof.
  intros Hkey.
  assert (Hp : TravelPlanner_init w mi lc = mkPlanner None None).
  { unfold TravelPlanner_init, get_llm, get_langchain_llm, get_mistral_llm,
      get_mistral_client. rewrite Hkey. now destruct (LANGCHAIN_PRESENT lc). }
  rewrite Hp. repeat split.
  intros. unfold get_travel_insights_realtime. now rewrite Hkey.
Qed.

(** X20: with MISTRAL_API_KEY set, a client that can be built and a chat
    call that returns, the realtime insights are the text of the
    response, whatever the planner is: the content of its first choice,
    else its [content] attribute, else [str(response)]. *)
Theorem get_travel_insights_realtime_mistral (w : world) (mi : mistral_lib)
    (p : TravelPlanner) (key destination duration budget interests : string)
    (response : chat_response) :
  getenv w "MISTRAL_API_KEY" = Some key ->
  key <> EmptyString ->
  make_client mi key = None ->
  client_chat mi key "mistral-tiny"
    (insights_prompt destination duration budget interests) = inr response ->
  get_travel_insights_realtime w mi p destination duration budget interests =
  match first_choice_content response with
  | Some content => content
  | None =>
      match content_attr response with
      | Some content => content
      | None => response_str response
      end
  end.
Proof.
  intros Hkey Hne Hclient Hchat.
  unfold get_travel_insights_realtime, get_mistral_insights, get_mistral_llm,
    get_mistral_client, mistral_call.
  rewrite Hkey. destruct key as [|a key]; [congruence |].
  cbn [env_falsy]. rewrite Hclient, Hchat. reflexivity.
Qed.

End Aggregator.

(** * Sample runs *)

(** C3 on [mixed_world].  Towards LHR no departure matches and both are
    rendered; towards CDG only the second arrives there and it alone is
    rendered. *)
Lemma fetch_realtime_flights_rows_sample :
  fst (fetch_realtime_flights sample_exn_str sample_float_repr sample_str_repr
         mixed_world "JFK" "LHR" "2024-06-01" None 1 []) =
  inr ("### Real-time flights from JFK to LHR on 2024-06-01" ++ nl ++
       "| Airline | Flight | Departure | Departure Airport | Arrival | Arrival Airport | Duration | Status | Terminal | Gate | Aircraft | Baggage |" ++ nl ++
       "|---|---|---|---|---|---|---|---|---|---|---|---|" ++ nl ++
       "| Delta | DL 1 | 2024-06-01 11:00 | N/A | N/A | N/A | N/A | N/A | N/A | N/A | N/A | N/A |" ++ nl ++
       "| Air France | AF 7 | 2024-06-01 10:00 | N/A | N/A | N/A | N/A | N/A | N/A | N/A | A350 | N/A |" ++ nl)
  /\
  fst (fetch_realtime_flights sample_exn_str sample_float_repr sample_str_repr
         mixed_world "JFK" "CDG" "2024-06-01" None 1 []) =
  inr ("### Real-time flights from JFK to CDG on 2024-06-01" ++ nl ++
       "| Airline | Flight | Departure | Departure Airport | Arrival | Arrival Airport | Duration | Status | Terminal | Gate | Aircraft | Baggage |" ++ nl ++
       "|---|---|---|---|---|---|---|---|---|---|---|---|" ++ nl ++
       "| Air France | AF 7 | 2024-06-01 10:00 | N/A | N/A | N/A | N/A | N/A | N/A | N/A | A350 | N/A |" ++ nl).
Proof.
  split.
  - refine (proj2 (proj2 (fetch_realtime_flights_rows
              sample_exn_str sample_float_repr sample_str_repr
              mixed_world [] [iata_request "k" "JFK"; iata_request "k" "LHR"]
              "JFK" "LHR" "k" "2024-06-01" (VStr "JFK") (VStr "LHR") None 1
              [("departures", VList [other_record; full_record])]
              [other_record; full_record] _ _ _ _ _))).
    + split; [reflexivity | discriminate].
    + split; [exists [iata_request "k" "JFK"]; split |]; reflexivity.
    + reflexivity.
    + discriminate.
    + repeat constructor.
  - refine (proj2 (proj2 (fetch_realtime_flights_rows
              sample_exn_str sample_float_repr sample_str_repr
              mixed_world [] [iata_request "k" "JFK"; iata_request "k" "CDG"]
              "JFK" "CDG" "k" "2024-06-01" (VStr "JFK") (VStr "CDG") None 1
              [("departures", VList [other_record; full_record])]
              [other_record; full_record] _ _ _ _ _))).
    + split; [reflexivity | discriminate].
    + split; [exists [iata_request "k" "JFK"]; split |]; reflexivity.
    + reflexivity.
    + discriminate.
    + repeat constructor.
Defined.

(** C4 on a world without environment: nothing is requested. *)
Lemma fetch_realtime_flights_no_credential_sample :
  fetch_realtime_flights sample_exn_str sample_float_repr sample_str_repr
    (offline no_env) "NYC" "Paris" "2024-06-01" None 1 [] =
  (inr ("Flights from NYC to Paris on 2024-06-01 for 1 adults:" ++ nl ++
        "- Airline X: $350" ++ nl ++ "- Airline Y: $420" ++ nl ++
        "- Airline Z: $390"), []).
Proof.
  exact (proj2 (fetch_realtime_flights_no_credential
                  sample_exn_str sample_float_repr sample_str_repr
                  (offline no_env) [] eq_refl)).
Defined.

(** C5 as stated fails on an organic result whose title is [null]: the
    payload has no [local_results] and no title containing "hotel" or
    "inn", [title.lower()] raises, and the result is the error string. *)
Lemma serpapi_search_hotels_null_title :
  network null_title_world [] (serpapi_request null_title_world "Paris")
  = ok (VDict [("organic_results", VList [VDict [("title", VNone)]])]) /\
  dict_get [("organic_results", VList [VDict [("title", VNone)]])]
    "local_results" = None /\
  forallb (fun item => negb (title_mentions_hotel item))
    (organic_entries [("organic_results", VList [VDict [("title", VNone)]])])
  = true /\
  fst (serpapi_search_hotels sample_exn_str sample_float_repr sample_str_repr
         sample_json_dumps null_title_world "Paris" "2024-06-01" "2024-06-04"
         2 []) =
  inr "[SerpAPI error: 'NoneType' object has no attribute 'lower']" /\
  fst (serpapi_search_hotels sample_exn_str sample_float_repr sample_str_repr
         sample_json_dumps null_title_world "Paris" "2024-06-01" "2024-06-04"
         2 []) <>
  inr (no_hotels_message sample_json_dumps
         (VDict [("organic_results", VList [VDict [("title", VNone)]])])).
Proof.
  repeat split; try reflexivity.
  vm_compute. discriminate.
Qed.

(** C5, amended, on [museum_world]: a museum and an entry without title. *)
Lemma serpapi_search_hotels_no_results_sample :
  serpapi_search_hotels sample_exn_str sample_float_repr sample_str_repr
    sample_json_dumps museum_world "Paris" "2024-06-01" "2024-06-04" 2 [] =
  (inr ("No hotels found for your search." ++ nl ++ nl ++
        "<details><summary>Debug: Raw SerpAPI response</summary>" ++ nl ++
        "<pre>{ ... }...</pre></details>"),
   [serpapi_request museum_world "Paris"]).
Proof.
  exact (serpapi_search_hotels_no_results
           sample_exn_str sample_float_repr sample_str_repr sample_json_dumps
           museum_world "Paris" "2024-06-01" "2024-06-04" 2 []
           [("organic_results",
             VList [VDict [("title", VStr "Louvre Museum")]; VDict []])]
           eq_refl eq_refl eq_refl eq_refl eq_refl).
Defined.

(** C6 with the network down: the error string of the hotel search, and
    the annotated mock of the flight search. *)
Lemma no_exception_crosses_sample :
  serpapi_search_hotels sample_exn_str sample_float_repr sample_str_repr
    sample_json_dumps (offline (env_with_key "k")) "Paris" "2024-06-01"
    "2024-06-04" 2 [] =
  (inr "[SerpAPI error: timed out]",
   [serpapi_request (offline (env_with_key "k")) "Paris"]) /\
  fetch_realtime_flights sample_exn_str sample_float_repr sample_str_repr
    (offline (env_with_key "k")) "NYC" "Paris" "2024-06-01" None 1 [] =
  (inr ("[API error: timed out] Falling back to mock data." ++ nl ++
        "Flights from NYC to Paris on 2024-06-01 for 1 adults:" ++ nl ++
        "- Airline X: $350" ++ nl ++ "- Airline Y: $420" ++ nl ++
        "- Airline Z: $390"),
   [iata_request "k" "NYC"; iata_request "k" "Paris";
    flights_request sample_float_repr sample_str_repr "k" (VStr "NYC")]).
Proof.
  destruct (no_exception_crosses
              sample_exn_str sample_float_repr sample_str_repr
              sample_json_dumps (offline (env_with_key "k")) []
              "Paris" "2024-06-01" "2024-06-04" "NYC" "2024-06-01" None 1)
    as (_ & _ & Hhotels & Hflights).
  split.
  - exact (Hhotels (RequestException "timed out") _ eq_refl).
  - refine (Hflights "k" (VStr "NYC") (VStr "Paris")
              [iata_request "k" "NYC"; iata_request "k" "Paris"]
              (RequestException "timed out") _ _ _ eq_refl).
    + split; [reflexivity | discriminate].
    + exists [iata_request "k" "NYC"]. split; reflexivity.
Defined.

(** C8 on [grand_inn_world]. *)
Lemma serpapi_search_hotels_grand_inn_sample :
  serpapi_search_hotels sample_exn_str sample_float_repr sample_str_repr
    sample_json_dumps grand_inn_world "Paris" "2024-06-01" "2024-06-04" 2 [] =
  (inr ("### Top Hotels (Google Hotels via SerpAPI)" ++ nl ++
        "| Name | Address | Rating | Reviews | Price | Link |" ++ nl ++
        "|---|---|---|---|---|---|" ++ nl ++
        "| Grand Inn Paris | 1 Rue X | N/A | N/A | N/A | N/A |" ++ nl),
   [serpapi_request grand_inn_world "Paris"]).
Proof.
  exact (serpapi_search_hotels_grand_inn
           sample_exn_str sample_float_repr sample_str_repr sample_json_dumps
           grand_inn_world "Paris" "2024-06-01" "2024-06-04" 2 [] eq_refl).
Defined.

(** C9 on two worlds with different keys, lookups and traces. *)
Lemma fetch_realtime_flights_same_output_sample :
  fst (fetch_realtime_flights sample_exn_str sample_float_repr sample_str_repr
         mixed_world "JFK" "CDG" "2024-06-01" None 1 []) =
  fst (fetch_realtime_flights sample_exn_str sample_float_repr sample_str_repr
         mixed_world' "JFK" "CDG" "2024-06-01" None 1
         [serpapi_request mixed_world' "Paris"]).
Proof.
  refine (fetch_realtime_flights_same_output
            sample_exn_str sample_float_repr sample_str_repr
            mixed_world mixed_world' [] [serpapi_request mixed_world' "Paris"]
            [iata_request "k" "JFK"; iata_request "k" "CDG"]
            [serpapi_request mixed_world' "Paris";
             iata_request "another key" "JFK";
             iata_request "another key" "CDG"]
            "JFK" "CDG" "k" "another key" "2024-06-01"
            (VStr "JFK") (VStr "CDG") mixed_payload None 1 _ _ _ _).
  - split; [reflexivity | discriminate].
  - split; [reflexivity | discriminate].
  - split; [exists [iata_request "k" "JFK"]; split |]; reflexivity.
  - split; [exists [serpapi_request mixed_world' "Paris";
                    iata_request "another key" "JFK"]; split |]; reflexivity.
Defined.

(** C10 on [no_departures_world], where both lookups resolve to CDG. *)
Lemma fetch_realtime_flights_none_found_sample :
  fetch_realtime_flights sample_exn_str sample_float_repr sample_str_repr
    no_departures_world "Paris" "Roissy" "2024-06-01" None 1 [] =
  (inr "No real-time flights found.",
   [iata_request "k" "Paris"; iata_request "k" "Roissy";
    flights_request sample_float_repr sample_str_repr "k" (VStr "CDG")]).
Proof.
  refine (fetch_realtime_flights_none_found
            sample_exn_str sample_float_repr sample_str_repr
            no_departures_world []
            [iata_request "k" "Paris"; iata_request "k" "Roissy"]
            "Paris" "Roissy" "k" "2024-06-01" (VStr "CDG") (VStr "CDG") None 1
            [("departures", VList [])] _ _ _).
  - split; [reflexivity | discriminate].
  - split; [exists [iata_request "k" "Paris"]; split |]; reflexivity.
  - right. reflexivity.
Defined.

(** * Sample runs of the planner and of the tables *)

(** X2 on [full_record]: four fields found, eight "N/A". *)
Lemma resolve_cells_complete_sample :
  resolve_cells full_record = inr full_cells /\
  all_cells full_cells =
  [VStr "Air France"; VStr "AF 7"; VStr "2024-06-01 10:00"; VStr "N/A";
   VStr "N/A"; VStr "N/A"; VStr "N/A"; VStr "N/A"; VStr "N/A"; VStr "N/A";
   VStr "A350"; VStr "N/A"] /\
  Forall (fun v => truthy v = true) (all_cells full_cells).
Proof.
  split; [reflexivity |].
  exact (resolve_cells_complete
           [("airlineName", VStr "Air France"); ("flightNumber", VStr "AF 7");
            ("scheduledTimeLocal", VStr "2024-06-01 10:00");
            ("aircraftModel", VStr "A350"); ("arrivalIata", VStr "CDG")]
           full_cells eq_refl).
Defined.

(** X3 with the key set to the empty string. *)
Lemma fetch_realtime_flights_empty_credential_sample :
  fetch_realtime_flights sample_exn_str sample_float_repr sample_str_repr
    (offline (env_with_key EmptyString)) "NYC" "Paris" "2024-06-01"
    (Some "2024-06-09") 2 [] =
  (inr (mock_search_flights "NYC" "Paris" "2024-06-01" (Some "2024-06-09") 2),
   []).
Proof.
  exact (fetch_realtime_flights_empty_credential
           sample_exn_str sample_float_repr sample_str_repr
           (offline (env_with_key EmptyString)) [] "NYC" "Paris" "2024-06-01"
           (Some "2024-06-09") 2 eq_refl).
Defined.

(** X4 on [no_departures_world], where the lookup resolves Paris to
    CDG: the departures asked for are those of CDG. *)
Lemma fetch_realtime_flights_three_requests_sample :
  exists s,
    fetch_realtime_flights sample_exn_str sample_float_repr sample_str_repr
      no_departures_world "Paris" "Roissy" "2024-06-01" None 1 [] =
    (inr s,
     [iata_request "k" "Paris"; iata_request "k" "Roissy";
      flights_request sample_float_repr sample_str_repr "k" (VStr "CDG")]).
Proof.
  refine (fetch_realtime_flights_three_requests
            sample_exn_str sample_float_repr sample_str_repr
            no_departures_world [] "Paris" "Roissy" "k" "2024-06-01"
            None 1 _).
  split; [reflexivity | discriminate].
Defined.

(** X5 on [bad_record_world] towards LHR: no record matches, the string
    "delayed" is among the first five and the table is given up. *)
Lemma fetch_realtime_flights_bad_record_sample :
  fst (fetch_realtime_flights sample_exn_str sample_float_repr sample_str_repr
         bad_record_world "JFK" "LHR" "2024-06-01" None 1 []) =
  inr ("[API error: 'str' object has no attribute 'get'] Falling back to mock data."
       ++ nl ++ mock_search_flights "JFK" "LHR" "2024-06-01" None 1).
Proof.
  refine (fetch_realtime_flights_bad_record
            sample_exn_str sample_float_repr sample_str_repr
            bad_record_world [] [iata_request "k" "JFK"; iata_request "k" "LHR"]
            "JFK" "LHR" "k" "2024-06-01" (VStr "JFK") (VStr "LHR") None 1
            [("departures", VList [full_record; VStr "delayed"])]
            [full_record; VStr "delayed"] [full_record] [] (VStr "delayed")
            _ _ _ _ _ _).
  - split; [reflexivity | discriminate].
  - split; [exists [iata_request "k" "JFK"]; split |]; reflexivity.
  - reflexivity.
  - reflexivity.
  - repeat constructor.
  - reflexivity.
Defined.

(** X6 on [bad_record_world] towards CDG: the one matching record is
    rendered and the string "delayed" does no harm. *)
Lemma fetch_realtime_flights_rendered_only_sample :
  fst (fetch_realtime_flights sample_exn_str sample_float_repr sample_str_repr
         bad_record_world "JFK" "CDG" "2024-06-01" None 1 []) =
  inr (flight_table_header sample_float_repr sample_str_repr
         (VStr "JFK") (VStr "CDG") "2024-06-01" ++
       row_of sample_float_repr sample_str_repr full_record).
Proof.
  refine (fetch_realtime_flights_rendered_only
            sample_exn_str sample_float_repr sample_str_repr
            bad_record_world [] [iata_request "k" "JFK"; iata_request "k" "CDG"]
            "JFK" "CDG" "k" "2024-06-01" (VStr "JFK") (VStr "CDG") None 1
            [("departures", VList [full_record; VStr "delayed"])]
            [full_record; VStr "delayed"] _ _ _ _ _).
  - split; [reflexivity | discriminate].
  - split; [exists [iata_request "k" "JFK"]; split |]; reflexivity.
  - reflexivity.
  - discriminate.
  - repeat constructor.
Defined.

(** X7 on [organic_world]: the museum is left out, the two others are
    shown in their order. *)
Lemma serpapi_search_hotels_organic_sample :
  fst (serpapi_search_hotels sample_exn_str sample_float_repr sample_str_repr
         sample_json_dumps organic_world "Paris" "2024-06-01" "2024-06-04"
         2 []) =
  inr ("### Top Hotels (Google Hotels via SerpAPI)" ++ nl ++
       "| Name | Address | Rating | Reviews | Price | Link |" ++ nl ++
       "|---|---|---|---|---|---|" ++ nl ++
       "| HOTEL Ritz | N/A | N/A | N/A | N/A | [View](https://ritz.example) |"
       ++ nl ++
       "| Grand Inn Paris | 1 Rue X | N/A | N/A | N/A | N/A |" ++ nl).
Proof.
  refine (serpapi_search_hotels_organic
            sample_exn_str sample_float_repr sample_str_repr sample_json_dumps
            organic_world "Paris" "2024-06-01" "2024-06-04" 2 []
            [("organic_results",
              VList [VDict [("title", VStr "Louvre Museum")]; ritz;
                     VDict [("title", VStr "Grand Inn Paris");
                            ("address", VStr "1 Rue X")]])]
            [VDict [("title", VStr "Louvre Museum")]; ritz;
             VDict [("title", VStr "Grand Inn Paris");
                    ("address", VStr "1 Rue X")]]
            eq_refl (or_introl eq_refl) eq_refl eq_refl _).
  discriminate.
Defined.

(** X8 on [places_world]: the hotel under [places] is shown, the organic
    result is not. *)
Lemma serpapi_search_hotels_local_sample :
  fst (serpapi_search_hotels sample_exn_str sample_float_repr sample_str_repr
         sample_json_dumps places_world "Paris" "2024-06-01" "2024-06-04"
         2 []) =
  inr ("### Top Hotels (Google Hotels via SerpAPI)" ++ nl ++
       "| Name | Address | Rating | Reviews | Price | Link |" ++ nl ++
       "|---|---|---|---|---|---|" ++ nl ++
       "| HOTEL Ritz | N/A | N/A | N/A | N/A | [View](https://ritz.example) |"
       ++ nl).
Proof.
  refine (serpapi_search_hotels_local
            sample_exn_str sample_float_repr sample_str_repr sample_json_dumps
            places_world "Paris" "2024-06-01" "2024-06-04" 2 []
            [("local_results", VDict [("places", VList [ritz])]);
             ("organic_results",
              VList [VDict [("title", VStr "Grand Inn Paris")]])]
            [ritz] eq_refl eq_refl _ _).
  - discriminate.
  - repeat constructor.
Defined.

(** X11 on [sample_days]: the key [notes] is dropped once and for all. *)
Lemma TravelItinerary_dict_stable_sample :
  TravelItinerary_init (VStr "Rome") (VStr "3 days") (VStr "$300")
    (VList [VDict [("day", VInt 1); ("activities", VList [VStr "Colosseum"]);
                   ("meals", VList []); ("accommodation", VStr EmptyString);
                   ("budget_estimate", VStr EmptyString)];
            VStr "free day"])
    (VList []) VNone VNone =
  inr (mkItinerary (VStr "Rome") (VStr "3 days") (VStr "$300")
         [DayPlan (VInt 1) (VList [VStr "Colosseum"]) (VList [])
            (VStr EmptyString) (VStr EmptyString);
          RawDay (VStr "free day")]
         (VList []) VNone VNone).
Proof.
  exact (TravelItinerary_dict_stable (VStr "Rome") (VStr "3 days")
           (VStr "$300") (VList sample_days) (VList []) VNone VNone
           _ eq_refl).
Defined.

(** X12 on the object of [rome_text] between two sentences. *)
Lemma parse_output_wrapped_sample :
  parse_output sample_json_loads
    ("Here is your plan: " ++ rome_text ++ " Enjoy!") = rome_data.
Proof.
  exact (parse_output_wrapped sample_json_loads "Here is your plan: "
           (double_quote ++ "destination" ++ double_quote ++ ": " ++
            double_quote ++ "Rome" ++ double_quote)
           " Enjoy!" eq_refl eq_refl eq_refl).
Defined.

(** X13 on an apology. *)
Lemma parse_output_no_braces_sample :
  parse_output sample_json_loads "Sorry, I cannot plan this trip." = VNone.
Proof.
  exact (parse_output_no_braces sample_json_loads
           "Sorry, I cannot plan this trip." eq_refl (or_introl eq_refl)).
Defined.

(** X14 without a model and with the network down. *)
Lemma generate_itinerary_placeholder_sample :
  fst (generate_itinerary sample_exn_str sample_float_repr sample_str_repr
         sample_json_dumps sample_json_loads no_model (offline no_env)
         sample_dates "Rome" "3 days" "Mid-range" "Food" []) =
  inr (mkItinerary (VStr "Rome") (VStr "3 days") (VStr "$150-450")
         (map (fun i =>
                 DayPlan (VInt i)
                   (VList [VStr "Sightseeing in Rome"; VStr "Local meal"])
                   (VList [VStr "Breakfast"; VStr "Lunch"; VStr "Dinner"])
                   (VStr "Central hotel") (VStr "$50-$150"))
              [1; 2; 3]%Z)
         (VList [VStr "Carry a reusable water bottle."])
         (VStr "[SerpAPI error: timed out]")
         (VStr (mock_search_flights "YourCity" "Rome" "2024-06-01" None 1))).
Proof.
  destruct (generate_itinerary_placeholder
              sample_exn_str sample_float_repr sample_str_repr
              sample_json_dumps sample_json_loads no_model (offline no_env)
              sample_dates "Rome" "3 days" "Mid-range" "Food" [] eq_refl)
    as (h & f & Hh & Hf & Hit).
  injection Hh as <-. injection Hf as <-. exact Hit.
Defined.

(** X16 on the model that answers with the array [[1]]. *)
Lemma generate_itinerary_not_a_mapping_sample :
  fst (generate_itinerary sample_exn_str sample_float_repr sample_str_repr
         sample_json_dumps sample_json_loads array_model (offline no_env)
         sample_dates "Rome" "3 days" "Mid-range" "Food" []) =
  inl (AttributeError "list" "get").
Proof.
  exact (generate_itinerary_not_a_mapping
           sample_exn_str sample_float_repr sample_str_repr
           sample_json_dumps sample_json_loads array_model (offline no_env)
           sample_dates "Rome" "3 days" "Mid-range" "Food" []
           eq_refl eq_refl).
Defined.

(** X17 on the model that wraps the object of [rome_text] in prose: the
    destination of the data, the duration asked for, no days. *)
Lemma generate_itinerary_from_data_sample :
  fst (generate_itinerary sample_exn_str sample_float_repr sample_str_repr
         sample_json_dumps sample_json_loads chatty_model (offline no_env)
         sample_dates "Roma" "3 days" "Mid-range" "Food" []) =
  inr (mkItinerary (VStr "Rome") (VStr "3 days") (VStr "$150-450") []
         (VList [])
         (VStr "[SerpAPI error: timed out]")
         (VStr (mock_search_flights "YourCity" "Roma" "2024-06-01" None 1))).
Proof.
  destruct (generate_itinerary_from_data
              sample_exn_str sample_float_repr sample_str_repr
              sample_json_dumps sample_json_loads chatty_model
              (offline no_env) sample_dates "Roma" "3 days" "Mid-range"
              "Food" [] [("destination", VStr "Rome")] [] eq_refl)
    as (h & f & Hh & Hf & Hit); [discriminate | reflexivity |].
  injection Hh as <-. injection Hf as <-. exact Hit.
Defined.

(** X18 with LangChain installed and a key: a chain, hence a model. *)
Lemma TravelPlanner_init_chain_sample :
  LANGCHAIN_PRESENT with_langchain = true /\
  llm (TravelPlanner_init (offline (env_with_mistral "m")) louvre_mistral
         with_langchain) <> None.
Proof.
  refine (TravelPlanner_init_chain (offline (env_with_mistral "m"))
            louvre_mistral with_langchain _).
  discriminate.
Defined.

(** X19 in a world without environment. *)
Lemma no_mistral_key_sample :
  TravelPlanner_init (offline no_env) louvre_mistral with_langchain =
  mkPlanner None None.
Proof.
  exact (proj1 (no_mistral_key sample_json_loads (offline no_env)
                  louvre_mistral with_langchain eq_refl)).
Defined.

(** X20 with a key and the library that answers about the Louvre. *)
Lemma get_travel_insights_realtime_mistral_sample :
  get_travel_insights_realtime (offline (env_with_mistral "m")) louvre_mistral
    no_model "Paris" "flexible" "mid-range" "Paris" = "Visit the Louvre.".
Proof.
  refine (get_travel_insights_realtime_mistral
            (offline (env_with_mistral "m")) louvre_mistral no_model "m"
            "Paris" "flexible" "mid-range" "Paris"
            (mkChatResponse (Some "Visit the Louvre.") None
               "ChatCompletionResponse()") eq_refl _ eq_refl eq_refl).
  discriminate.
Defined.

(** X21 on a departures response that is the empty array. *)
Lemma fetch_realtime_flights_not_a_mapping_sample :
  fst (fetch_realtime_flights sample_exn_str sample_float_repr sample_str_repr
         array_payload_world "JFK" "CDG" "2024-06-01" None 1 []) =
  inr ("[API error: 'list' object has no attribute 'get'] Falling back to mock data."
       ++ nl ++ mock_search_flights "JFK" "CDG" "2024-06-01" None 1).
Proof.
  refine (fetch_realtime_flights_not_a_mapping
            sample_exn_str sample_float_repr sample_str_repr
            array_payload_world []
            [iata_request "k" "JFK"; iata_request "k" "CDG"]
            "JFK" "CDG" "k" "2024-06-01" (VStr "JFK") (VStr "CDG") (VList [])
            None 1 _ _ eq_refl).
  - split; [reflexivity | discriminate].
  - split; [exists [iata_request "k" "JFK"]; split |]; reflexivity.
Defined.

(** X22 on a hotel response that is [null]. *)
Lemma serpapi_search_hotels_not_a_container_sample :
  fst (serpapi_search_hotels sample_exn_str sample_float_repr sample_str_repr
         sample_json_dumps null_payload_world "Paris" "2024-06-01"
         "2024-06-04" 2 []) =
  inr "[SerpAPI error: argument of type 'NoneType' is not iterable]".
Proof.
  exact (serpapi_search_hotels_not_a_container
           sample_exn_str sample_float_repr sample_str_repr sample_json_dumps
           null_payload_world "Paris" "2024-06-01" "2024-06-04" 2 [] VNone
           eq_refl eq_refl).
Defined.
